(** * Prompt engine: a shallow embedding of [interact_prompt_cli.py]

    The development follows the layout of the Python module: the string and
    dictionary primitives the code relies on, the line reader collaborator
    ([plim]) as an explicit world, the retry/confirm loop of [PromptBase],
    the three concrete prompts and finally the [interactive_prompt] facade.

    Modelling conventions.
    - Python [str] is [string] (a sequence of bytes); [str.lower] and
      [str.strip] act on the ASCII range, bytes above 127 are left alone.
    - Python [int] is [Z]; [bool] is a subtype of [int], as in Python.
    - A [dict] is an insertion-ordered association list with unique keys,
      updated in place on a repeated key.
    - Catalog values are the scalars [None], [bool], [int] and [str];
      unhashable values, on which building the maps can fail, are outside
      the model, and no theorem below claims that construction succeeds
      on every [dict].
    - [plim.ask] is a stream of answers indexed by the number of questions
      asked so far; every [plim] call is recorded in a trace.
    - Exceptions are values of [exn]; a computation either returns, raises
      or runs out of fuel (the latter only for the [while True] loop). *)

From Stdlib Require Import ZArith List String Ascii Bool Lia Arith.
From Stdlib Require Import DecimalString Decimal DecimalNat FinFun.
Import ListNotations.

Local Open Scope string_scope.
Local Open Scope Z_scope.

(* ------------------------------------------------------------------------ *)
(** ** Python string primitives                                              *)
(* ------------------------------------------------------------------------ *)

Module PyStr.

Definition is_upper (c : ascii) : bool :=
  let n := nat_of_ascii c in (65 <=? n)%nat && (n <=? 90)%nat.

Definition lower_char (c : ascii) : ascii :=
  if is_upper c then ascii_of_nat (nat_of_ascii c + 32) else c.

(** [s.lower()] *)
Fixpoint lower (s : string) : string :=
  match s with
  | EmptyString => EmptyString
  | String c r => String (lower_char c) (lower r)
  end.

(** [c.isspace()] on the ASCII range: tab .. carriage return, the four
    separators 28..31 and the blank. *)
Definition is_space (c : ascii) : bool :=
  let n := nat_of_ascii c in
  ((9 <=? n)%nat && (n <=? 13)%nat) || ((28 <=? n)%nat && (n <=? 32)%nat).

(** [s.lstrip()] *)
Fixpoint lstrip (s : string) : string :=
  match s with
  | EmptyString => EmptyString
  | String c r => if is_space c then lstrip r else s
  end.

(** [s.rstrip()] *)
Fixpoint rstrip (s : string) : string :=
  match s with
  | EmptyString => EmptyString
  | String c r =>
      match rstrip r with
      | EmptyString => if is_space c then EmptyString else String c EmptyString
      | r' => String c r'
      end
  end.

(** [s.strip()] *)
Definition strip (s : string) : string := rstrip (lstrip s).

(** [s.split(sep)] for a one-character separator: never the empty list. *)
Fixpoint split (sep : ascii) (s : string) : list string :=
  match s with
  | EmptyString => [EmptyString]
  | String c r =>
      if Ascii.eqb c sep then EmptyString :: split sep r
      else match split sep r with
           | [] => [String c EmptyString]
           | h :: t => String c h :: t
           end
  end.

(** [sep.join(l)] *)
Fixpoint join (sep : string) (l : list string) : string :=
  match l with
  | [] => EmptyString
  | [x] => x
  | x :: r => x ++ sep ++ join sep r
  end.

(** [str(n)] for a natural number. *)
Definition of_nat (n : nat) : string := NilZero.string_of_uint (Nat.to_uint n).

(** [str(z)] for an integer. *)
Definition of_Z (z : Z) : string :=
  if z <? 0 then "-" ++ of_nat (Z.to_nat (- z)) else of_nat (Z.to_nat z).

(** Truthiness of a string: [bool(s)]. *)
Definition truthy (s : string) : bool :=
  match s with EmptyString => false | _ => true end.

(** [x in l] for a list of strings. *)
Definition mem (x : string) (l : list string) : bool :=
  existsb (String.eqb x) l.

End PyStr.

(* ------------------------------------------------------------------------ *)
(** ** Python values                                                         *)
(* ------------------------------------------------------------------------ *)

(** The scalar values a catalog may hold and a default may be. *)
Inductive value : Type :=
| VNone
| VBool (b : bool)
| VInt (z : Z)
| VStr (s : string).

Definition Z_of_bool (b : bool) : Z := if b then 1 else 0.

(** Python's [==] on these values: [bool] compares as the integer it is. *)
Definition value_eqb (a b : value) : bool :=
  match a, b with
  | VNone, VNone => true
  | VStr s, VStr t => String.eqb s t
  | VBool x, VBool y => Bool.eqb x y
  | VInt x, VInt y => x =? y
  | VBool x, VInt y => Z_of_bool x =? y
  | VInt x, VBool y => x =? Z_of_bool y
  | _, _ => false
  end.

(** [str(v)] *)
Definition py_str (v : value) : string :=
  match v with
  | VNone => "None"
  | VBool true => "True"
  | VBool false => "False"
  | VInt z => PyStr.of_Z z
  | VStr s => s
  end.

(** [type(v).__name__] *)
Definition type_name (v : value) : string :=
  match v with
  | VNone => "NoneType"
  | VBool _ => "bool"
  | VInt _ => "int"
  | VStr _ => "str"
  end.

(** What a validation step or [ask] hands back: the [_Retry] class object,
    one value, or a list of values. *)
Inductive result : Type :=
| RRetry
| RVal (v : value)
| RList (l : list value).

(* ------------------------------------------------------------------------ *)
(** ** Python dictionaries                                                   *)
(* ------------------------------------------------------------------------ *)

Module PyDict.
Section Dict.
Context {K V : Type} (eqb : K -> K -> bool).

(** [d.get(k)] *)
Fixpoint get (k : K) (d : list (K * V)) : option V :=
  match d with
  | [] => None
  | (k', v) :: r => if eqb k k' then Some v else get k r
  end.

(** [k in d] *)
Definition mem (k : K) (d : list (K * V)) : bool :=
  match get k d with Some _ => true | None => false end.

(** [d[k] = v]: an existing key keeps its place. *)
Fixpoint set (k : K) (v : V) (d : list (K * V)) : list (K * V) :=
  match d with
  | [] => [(k, v)]
  | (k', v') :: r => if eqb k k' then (k', v) :: r else (k', v') :: set k v r
  end.

(** The dictionary a literal or a comprehension with these items builds. *)
Definition of_items (items : list (K * V)) : list (K * V) :=
  fold_left (fun d kv => set (fst kv) (snd kv) d) items [].

Definition keys (d : list (K * V)) : list K := map fst d.
Definition values (d : list (K * V)) : list V := map snd d.
End Dict.
End PyDict.

(* ------------------------------------------------------------------------ *)
(** ** The line reader collaborator and the effect monad                     *)
(* ------------------------------------------------------------------------ *)

(** Every call on [plim], in call order. *)
Inductive event : Type :=
| EAsk (msg : string)
| EWarn (msg : string)
| EError (msg : string)
| EPlain (msg : string)
| EPlainBlank
| EBold (msg : string)
| EDivider.

(** The console: [answers n] is what [plim.ask] returns on its [n]-th call
    ([None] is Python's [None]), [asked] counts the calls made so far. *)
Record world : Type := mkWorld {
  answers : nat -> option string;
  asked : nat;
  trace : list event
}.

Inductive exn : Type :=
| IndexError (msg : string)
| KeyError (key : string)
| TypeError (msg : string)
| AttributeError (msg : string).

Inductive outcome (A : Type) : Type :=
| Ret (a : A) (w : world)
| Raise (e : exn) (w : world)
| OutOfFuel.
Arguments Ret {A} a w.
Arguments Raise {A} e w.
Arguments OutOfFuel {A}.

Definition M (A : Type) : Type := world -> outcome A.

Definition ret {A} (a : A) : M A := fun w => Ret a w.
Definition raise {A} (e : exn) : M A := fun w => Raise e w.
Definition bind {A B} (m : M A) (k : A -> M B) : M B :=
  fun w => match m w with
           | Ret a w' => k a w'
           | Raise e w' => Raise e w'
           | OutOfFuel => OutOfFuel
           end.

Declare Scope py_scope.
Delimit Scope py_scope with py.
Notation "x <- m ;; k" := (bind m (fun x => k))
  (at level 61, m at next level, right associativity) : py_scope.
Notation "m ;;; k" := (bind m (fun _ => k))
  (at level 61, right associativity) : py_scope.

(** Pure code that may raise (object construction). *)
Definition E (A : Type) : Type := (exn + A)%type.
Definition ebind {A B} (m : E A) (k : A -> E B) : E B :=
  match m with inl e => inl e | inr a => k a end.
Definition lift {A} (m : E A) : M A :=
  match m with inl e => raise e | inr a => ret a end.

Definition emit (e : event) : M unit :=
  fun w => Ret tt (mkWorld (answers w) (asked w) (trace w ++ [e])).

Module plim.
Definition ask (msg : string) : M (option string) :=
  fun w => Ret (answers w (asked w))
               (mkWorld (answers w) (S (asked w)) (trace w ++ [EAsk msg])).
Definition warn (msg : string) : M unit := emit (EWarn msg).
Definition error (msg : string) : M unit := emit (EError msg).
Definition plain (msg : string) : M unit := emit (EPlain msg).
Definition plain_blank : M unit := emit EPlainBlank.
Definition bold (msg : string) : M unit := emit (EBold msg).
Definition divider : M unit := emit EDivider.
End plim.

(** [x or ""] for what [plim.ask] returned. *)
Definition or_empty (x : option string) : string :=
  match x with
  | Some s => s
  | None => ""
  end.

Definition nl : string := String (ascii_of_nat 10) EmptyString.

(** A console that answers with the lines of [l], then with [None]. *)
Definition script (l : list string) : world :=
  mkWorld (fun n => nth_error l n) 0 [].

(* ------------------------------------------------------------------------ *)
(** ** Foundation: [PromptBase]                                              *)
(* ------------------------------------------------------------------------ *)

Module PromptBase.

Record t : Type := mk {
  prompt : string;
  retries : Z;
  confirm : bool;
  _attempts : Z
}.

(** The dataclass constructor: [_attempts] is not an init field. *)
Definition new (prompt : string) (retries : Z) (confirm : bool) : t :=
  mk prompt retries confirm 0.

Definition incr_attempts (self : t) : t :=
  mk (prompt self) (retries self) (confirm self) (_attempts self + 1).

Local Open Scope py_scope.

(** [", ".join(value)] on a list of values: every item has to be a [str]. *)
Fixpoint join_values (i : nat) (l : list value) : E (list string) :=
  match l with
  | [] => inr []
  | VStr s :: r => ebind (join_values (S i) r) (fun rest => inr (s :: rest))
  | v :: _ =>
      inl (TypeError ("sequence item " ++ PyStr.of_nat i
                      ++ ": expected str instance, " ++ type_name v ++ " found"))
  end.

(** The text [f"{display}"] of [_confirm]; the [_Retry] class object prints
    as a class of this module. *)
Definition display_of (value : result) : E string :=
  match value with
  | RList l => ebind (join_values 0 l) (fun ss => inr (PyStr.join ", " ss))
  | RVal v => inr (py_str v)
  | RRetry => inr "<class 'interact_prompt_cli._Retry'>"
  end.

Definition _confirm (value : result) : M bool :=
  display <- lift (display_of value) ;;
  resp <- plim.ask ("⚠️ Confirm selection:" ++ nl ++ display ++ nl ++ "Confirm? [Y/n]") ;;
  let r := PyStr.lower (PyStr.strip (or_empty resp)) in
  ret (negb (PyStr.mem r ["n"; "no"])).

Section Ask.
(** The abstract [_do_ask] of the subclass at hand; it neither reads nor
    writes [_attempts]. *)
Variable _do_ask : M result.

Fixpoint ask_loop (fuel : nat) (self : t) : M (result * t) :=
  match fuel with
  | O => fun _ => OutOfFuel
  | S fuel' =>
      if _attempts self <? retries self then
        value <- _do_ask ;;
        match value with
        | RRetry => ask_loop fuel' (incr_attempts self)
        | _ =>
            if confirm self then
              ok <- _confirm value ;;
              if negb ok then ask_loop fuel' (incr_attempts self)
              else ret (value, self)
            else ret (value, self)
        end
      else
        plim.error "❌ Too many invalid attempts." ;;;
        plim.divider ;;;
        ret (RVal VNone, self)
  end.

(** [ask]: the loop runs at most [retries - _attempts] times, so this
    much fuel is never used up (see [ask_loop_fuel]). *)
Definition ask (self : t) : M (result * t) :=
  ask_loop (S (Z.to_nat (retries self - _attempts self))) self.
End Ask.

End PromptBase.

(* ------------------------------------------------------------------------ *)
(** ** Option selection prompt                                               *)
(* ------------------------------------------------------------------------ *)

(** What a caller may pass as [options]: a list or a tuple of strings, a
    dictionary (given by the items of its literal), or any scalar, [None]
    included. *)
Inductive py_options : Type :=
| OList (l : list string)
| OTuple (l : list string)
| ODict (items : list (string * value))
| OValue (v : value).

(** What a caller may pass as [default]: one scalar ([None] included) or a
    list of scalars. *)
Inductive py_default : Type :=
| DVal (v : value)
| DList (l : list value).

Module OptionPrompt.

Local Open Scope py_scope.

(** The init fields of the dataclass. *)
Record args : Type := mkArgs {
  a_prompt : string;
  a_retries : Z;
  a_confirm : bool;
  a_options : py_options;
  a_default : py_default;
  a_case_sensitive : bool;
  a_multi : bool;
  a_allow_custom : bool;
  a_display : string
}.

Record t : Type := mk {
  base : PromptBase.t;
  options : py_options;
  default : py_default;
  case_sensitive : bool;
  multi : bool;
  allow_custom : bool;
  display : string;
  _option_dict : list (string * value);
  _display_keys : list string;
  _value_map : list (value * value);
  _index_map : list (string * value);
  _default_keys : list string
}.

(** [d[k]] on a dictionary with string keys. *)
Definition getitem (k : string) (d : list (string * value)) : E value :=
  match PyDict.get String.eqb k d with
  | Some v => inr v
  | None => inl (KeyError k)
  end.

(** The characters of a string as one-character strings. *)
Fixpoint chars (s : string) : list string :=
  match s with
  | EmptyString => []
  | String c r => String c EmptyString :: chars r
  end.

(** Normalise the option container: a [dict] is taken as it is, anything
    else is iterated by the comprehension [{opt: opt for opt in options}]. *)
Definition normalise_options (o : py_options) : E (list (string * value)) :=
  match o with
  | ODict items => inr (PyDict.of_items String.eqb items)
  | OList l | OTuple l =>
      inr (PyDict.of_items String.eqb (map (fun opt => (opt, VStr opt)) l))
  | OValue (VStr s) =>
      inr (PyDict.of_items String.eqb (map (fun opt => (opt, VStr opt)) (chars s)))
  | OValue v => inl (TypeError ("'" ++ type_name v ++ "' object is not iterable"))
  end.

Section Maps.
Variable case_sensitive : bool.
Variable _option_dict : list (string * value).
Variable _display_keys : list string.

Definition key_norm (k : string) : value :=
  VStr (if case_sensitive then k else PyStr.lower k).

Definition value_norm (v : value) : value :=
  if case_sensitive then v else VStr (PyStr.lower (py_str v)).

(** One turn of the loop over [items()] in [_build_maps]. *)
Definition add_entry (vm : list (value * value)) (kv : string * value)
  : list (value * value) :=
  let '(k, v) := kv in
  let k_norm := key_norm k in
  let v_norm := value_norm v in
  let vm := PyDict.set value_eqb k_norm v vm in
  if negb (value_eqb v_norm k_norm) then PyDict.set value_eqb v_norm v vm
  else vm.

Definition build_value_map : list (value * value) :=
  fold_left add_entry _option_dict [].

(** The items of the index map comprehension, [i] counting from zero. *)
Fixpoint index_items (i : nat) (ks : list string) : E (list (string * value)) :=
  match ks with
  | [] => inr []
  | k :: r =>
      ebind (getitem k _option_dict) (fun v =>
      ebind (index_items (S i) r) (fun rest =>
      inr ((PyStr.of_nat (i + 1), v) :: rest)))
  end.

Definition build_index_map : E (list (string * value)) :=
  ebind (index_items 0 _display_keys) (fun items =>
  inr (PyDict.of_items String.eqb items)).

(** The loop over [items()] inside [match]. *)
Fixpoint match_text (cmp : string) (items : list (string * value)) : option string :=
  match items with
  | [] => None
  | (k, v) :: r =>
      if value_eqb (VStr cmp) (key_norm k) || value_eqb (VStr cmp) (value_norm v)
      then Some k
      else match_text cmp r
  end.

(** The inner function [match] of [_resolve_default_keys]; [None] is
    Python's [None]. *)
Definition match_default (val : value) : option string :=
  let by_text :=
    match val with
    | VStr s => match_text (if case_sensitive then s else PyStr.lower s) _option_dict
    | _ => None
    end in
  let by_index (z : Z) :=
    if (0 <=? z) && (z <? Z.of_nat (List.length _display_keys))
    then nth_error _display_keys (Z.to_nat z)
    else by_text in
  match val with
  | VInt z => by_index z
  | VBool b => by_index (Z_of_bool b)
  | _ => by_text
  end.

(** The keys kept by [if m]: neither [None] nor the empty string. *)
Definition keep_truthy (m : option string) : list string :=
  match m with
  | Some k => if PyStr.truthy k then [k] else []
  | None => []
  end.

Definition _resolve_default_keys (default : py_default) : list string :=
  match default with
  | DList l => flat_map (fun d => keep_truthy (match_default d)) l
  | DVal v => keep_truthy (match_default v)
  end.
End Maps.

(** [__init__] followed by [__post_init__]. *)
Definition new (a : args) : E t :=
  ebind (normalise_options (a_options a)) (fun od =>
  let dk := PyDict.keys od in
  let cs := a_case_sensitive a in
  let vm := build_value_map cs od in
  ebind (build_index_map od dk) (fun im =>
  inr (mk (PromptBase.new (a_prompt a) (a_retries a) (a_confirm a))
          (a_options a) (a_default a) cs (a_multi a) (a_allow_custom a)
          (a_display a) od dk vm im
          (_resolve_default_keys cs od dk (a_default a))))).

(** *** Rendering *)

(** The loop of the menu display, [idx] counting from one. *)
Fixpoint render_menu (self : t) (idx : nat) (ks : list string) : M unit :=
  match ks with
  | [] => ret tt
  | key :: r =>
      let is_default := PyStr.mem key (_default_keys self) in
      let tag := if is_default then " [default]" else "" in
      let text := " [" ++ PyStr.of_nat idx ++ "] " ++ key ++ tag in
      (if is_default then plim.bold text else plim.plain text) ;;;
      render_menu self (S idx) r
  end.

Definition _render_prompt (self : t) : M string :=
  let custom (txt : string) := if allow_custom self then txt else "" in
  if String.eqb (display self) "menu" then
    render_menu self 1 (_display_keys self) ;;;
    let rng := "1-" ++ PyStr.of_nat (List.length (_display_keys self)) in
    let suffix :=
      if multi self then " [" ++ rng ++ " / all / none" ++ custom " / custom" ++ "]"
      else " [" ++ rng ++ custom " / custom" ++ "]" in
    ret (PromptBase.prompt (base self) ++ suffix ++ ": ")
  else
    let opts_repr := PyStr.join "/" (_display_keys self) in
    let opts_repr := if multi self then opts_repr ++ "/all/none" else opts_repr in
    let hint := custom " | custom" in
    let default_txt :=
      match _default_keys self with
      | [] => ""
      | ks => " (default: " ++ PyStr.join ", " ks ++ ")"
      end in
    ret (PromptBase.prompt (base self) ++ " [" ++ opts_repr ++ hint ++ "]"
         ++ default_txt ++ ": ").

(** *** Helpers *)

(** [[self._option_dict[k] for k in ks]] *)
Fixpoint getitems (d : list (string * value)) (ks : list string) : E (list value) :=
  match ks with
  | [] => inr []
  | k :: r =>
      ebind (getitem k d) (fun v =>
      ebind (getitems d r) (fun rest => inr (v :: rest)))
  end.

Definition is_none (d : py_default) : bool :=
  match d with
  | DVal VNone => true
  | _ => false
  end.

Definition _handle_empty (self : t) : E result :=
  if is_none (default self) then
    inr (if negb (multi self) then RVal VNone else RList [])
  else if negb (multi self) then
    match _default_keys self with
    | k :: _ => ebind (getitem k (_option_dict self)) (fun v => inr (RVal v))
    | [] => inl (IndexError "list index out of range")
    end
  else
    ebind (getitems (_option_dict self) (_default_keys self)) (fun vs =>
    inr (RList vs)).

(** [[t.strip() for t in norm.split(",") if t.strip()]] *)
Definition tokens_of (norm : string) : list string :=
  filter PyStr.truthy (map PyStr.strip (PyStr.split "," norm)).

(** The [for] loop of the multi-select branch, with its two accumulators;
    the shortcuts leave the loop at once. *)
Fixpoint scan_tokens (self : t) (tokens : list string)
         (selected : list value) (unknown : list string)
  : list value * list string :=
  match tokens with
  | [] => (selected, unknown)
  | token :: rest =>
      match PyDict.get String.eqb token (_index_map self) with
      | Some v => scan_tokens self rest (selected ++ [v]) unknown
      | None =>
          match PyDict.get value_eqb (VStr token) (_value_map self) with
          | Some v => scan_tokens self rest (selected ++ [v]) unknown
          | None =>
              if PyStr.mem token ["all"; "none"] then
                (if String.eqb token "all"
                 then PyDict.values (_option_dict self) else [],
                 unknown)
              else if allow_custom self then
                scan_tokens self rest (selected ++ [VStr token]) unknown
              else
                scan_tokens self rest selected (unknown ++ [token])
          end
      end
  end.

Definition _parse_input (self : t) (raw : string) : M result :=
  let norm := if case_sensitive self then raw else PyStr.lower raw in
  if multi self then
    let '(selected, unknown) := scan_tokens self (tokens_of norm) [] [] in
    match unknown with
    | [] => ret (RList selected)
    | _ =>
        plim.warn ("⚠️ Invalid input: " ++ PyStr.join ", " unknown) ;;;
        ret RRetry
    end
  else
    match PyDict.get String.eqb norm (_index_map self) with
    | Some v => ret (RVal v)
    | None =>
        match PyDict.get value_eqb (VStr norm) (_value_map self) with
        | Some v => ret (RVal v)
        | None =>
            if allow_custom self then ret (RVal (VStr raw))
            else
              plim.warn ("⚠️ Invalid input. Expected one of: "
                         ++ PyStr.join ", " (_display_keys self)) ;;;
              ret RRetry
        end
    end.

Definition _do_ask (self : t) : M result :=
  prompt_msg <- _render_prompt self ;;
  answer <- plim.ask prompt_msg ;;
  let raw := or_empty answer in
  if String.eqb raw "" then lift (_handle_empty self)
  else _parse_input self raw.

Definition with_base (self : t) (b : PromptBase.t) : t :=
  mk b (options self) (default self) (case_sensitive self) (multi self)
     (allow_custom self) (display self) (_option_dict self)
     (_display_keys self) (_value_map self) (_index_map self)
     (_default_keys self).

(** The inherited [ask], with [_do_ask] bound to this class. *)
Definition ask (self : t) : M (result * t) :=
  r <- PromptBase.ask (_do_ask self) (base self) ;;
  ret (fst r, with_base self (snd r)).

End OptionPrompt.

(* ------------------------------------------------------------------------ *)
(** ** Free-form prompt                                                      *)
(* ------------------------------------------------------------------------ *)

Module FreeformPrompt.

Local Open Scope py_scope.

Record t : Type := mk {
  base : PromptBase.t;
  multi : bool
}.

Definition new (prompt : string) (multi : bool) (retries : Z) (confirm : bool) : t :=
  mk (PromptBase.new prompt retries confirm) multi.

(** The echo loop over [enumerate(values, 1)]. *)
Fixpoint echo_entries (i : nat) (values : list string) : M unit :=
  match values with
  | [] => ret tt
  | val :: r =>
      plim.plain (" " ++ PyStr.of_nat i ++ ". " ++ val) ;;;
      echo_entries (S i) r
  end.

(** The [while True] loop of the repeated mode: it ends when the console
    answers ["done"] or the empty line, and not before. *)
Fixpoint collect (fuel : nat) (self : t) (values : list string) : M (list string) :=
  match fuel with
  | O => fun _ => OutOfFuel
  | S fuel' =>
      answer <- plim.ask (PromptBase.prompt (base self)
                          ++ " (or type 'done' to finish): ") ;;
      match answer with
      | None => raise (AttributeError "'NoneType' object has no attribute 'lower'")
      | Some raw =>
          if PyStr.mem (PyStr.lower raw) ["done"; ""] then ret values
          else
            let values := (values ++ [raw])%list in
            plim.plain "Current entries:" ;;;
            echo_entries 1 values ;;;
            plim.plain_blank ;;;
            collect fuel' self values
      end
  end.

Definition _do_ask (fuel : nat) (self : t) : M result :=
  if multi self then
    values <- collect fuel self [] ;;
    match values with
    | [] => plim.plain "No entries provided." ;;; ret RRetry
    | _ => ret (RList (map VStr values))
    end
  else
    answer <- plim.ask (PromptBase.prompt (base self) ++ ": ") ;;
    match answer with
    | Some raw => ret (if PyStr.truthy raw then RVal (VStr raw) else RRetry)
    | None => ret RRetry
    end.

Definition ask (fuel : nat) (self : t) : M (result * t) :=
  r <- PromptBase.ask (_do_ask fuel self) (base self) ;;
  ret (fst r, mk (snd r) (multi self)).

End FreeformPrompt.

(* ------------------------------------------------------------------------ *)
(** ** Convenience: yes / no prompt                                          *)
(* ------------------------------------------------------------------------ *)

Module YesNoPrompt.

(** [__init__]: the keyword arguments left to the caller are those of
    [PromptBase]. *)
Definition new (prompt : string) (default : option string)
           (retries : Z) (confirm : bool) : E OptionPrompt.t :=
  OptionPrompt.new
    (OptionPrompt.mkArgs prompt retries confirm
       (ODict [("yes", VBool true); ("no", VBool false)])
       (match default with Some d => DVal (VStr d) | None => DVal VNone end)
       false false false "inline").

End YesNoPrompt.

(* ------------------------------------------------------------------------ *)
(** ** Back-compat facade                                                    *)
(* ------------------------------------------------------------------------ *)

Record router_args : Type := mkRouter {
  r_prompt : string;
  r_options : py_options;
  r_default : py_default;
  r_multi : bool;
  r_allow_custom : bool;
  r_freeform : string;
  r_confirm : bool;
  r_retries : Z;
  r_case_sensitive : bool;
  r_display : string
}.

Definition contract_violation : exn :=
  TypeError "'options' must be list, dict, or None".

Definition options_is_none (o : py_options) : bool :=
  match o with
  | OValue VNone => true
  | _ => false
  end.

(** [isinstance(options, (list, dict))] *)
Definition is_list_or_dict (o : py_options) : bool :=
  match o with
  | OList _ | ODict _ => true
  | _ => false
  end.

Definition interactive_prompt (fuel : nat) (a : router_args) : M result :=
  let freeform (multi : bool) :=
    bind (FreeformPrompt.ask fuel
            (FreeformPrompt.new (r_prompt a) multi (r_retries a) (r_confirm a)))
         (fun r => ret (fst r)) in
  if PyStr.mem (r_freeform a) ["single"; "multi"] then
    freeform (String.eqb (r_freeform a) "multi")
  else if options_is_none (r_options a) then
    freeform false
  else if is_list_or_dict (r_options a) then
    bind (lift (OptionPrompt.new
                  (OptionPrompt.mkArgs (r_prompt a) (r_retries a) (r_confirm a)
                     (r_options a) (r_default a) (r_case_sensitive a)
                     (r_multi a) (r_allow_custom a) (r_display a))))
         (fun p => bind (OptionPrompt.ask p) (fun r => ret (fst r)))
  else
    raise contract_violation.

(* ------------------------------------------------------------------------ *)
(** ** Vocabulary of the statements                                          *)
(* ------------------------------------------------------------------------ *)

(** The console after some more output. *)
Definition after_events (w : world) (es : list event) : world :=
  mkWorld (answers w) (asked w) (trace w ++ es).

(** The console after one more question. *)
Definition after_ask (w : world) (msg : string) : world :=
  mkWorld (answers w) (S (asked w)) (trace w ++ [EAsk msg]).

(** The answer the console gives to the next question. *)
Definition next_answer (w : world) : option string := answers w (asked w).

Fixpoint all_chars (P : ascii -> bool) (s : string) : bool :=
  match s with
  | EmptyString => true
  | String c r => P c && all_chars P r
  end.

(** A text of ASCII characters only.  On such a text [PyStr.lower] and
    [PyStr.strip] are Python's [str.lower] and [str.strip]; statements whose
    outcome depends on folding or stripping a text are made for ASCII
    texts. *)
Definition is_ascii (s : string) : bool :=
  all_chars (fun c => (nat_of_ascii c <? 128)%nat) s.

(** The next answer of the console, if there is one, is ASCII. *)
Definition ascii_answer (w : world) : Prop :=
  forall a, next_answer w = Some a -> is_ascii a = true.

Definition with_attempts (self : PromptBase.t) (n : Z) : PromptBase.t :=
  PromptBase.mk (PromptBase.prompt self) (PromptBase.retries self)
                (PromptBase.confirm self) n.

(** [retry_run _do_ask n w w']: starting from [w], [n] validation steps in a
    row yield the retry sentinel and leave the console in [w']. *)
Inductive retry_run (_do_ask : M result) : nat -> world -> world -> Prop :=
| retry_run_O (w : world) : retry_run _do_ask 0 w w
| retry_run_S (n : nat) (w w1 w2 : world) :
    _do_ask w = Ret RRetry w1 ->
    retry_run _do_ask n w1 w2 ->
    retry_run _do_ask (S n) w w2.

Definition too_many : list event :=
  [EError "❌ Too many invalid attempts."; EDivider].

(** A token the catalog itself resolves, as an index or as a key or alias. *)
Definition recognised (p : OptionPrompt.t) (token : string) : bool :=
  PyDict.mem String.eqb token (OptionPrompt._index_map p)
  || PyDict.mem value_eqb (VStr token) (OptionPrompt._value_map p).

(** The catalog of the examples. *)
Definition fruit (multi : bool) (default : py_default) : OptionPrompt.args :=
  OptionPrompt.mkArgs "Fruit?" 3 false
    (ODict [("Apple", VInt 1); ("Banana", VInt 2); ("Cherry", VInt 3)])
    default false multi false "inline".

(** The arguments [interactive_prompt] hands to [OptionPrompt]. *)
Definition option_args (a : router_args) : OptionPrompt.args :=
  OptionPrompt.mkArgs (r_prompt a) (r_retries a) (r_confirm a) (r_options a)
    (r_default a) (r_case_sensitive a) (r_multi a) (r_allow_custom a)
    (r_display a).

(** An explicit free-form mode was requested. *)
Definition freeform_requested (a : router_args) : bool :=
  PyStr.mem (r_freeform a) ["single"; "multi"].

Definition expected_yes_no : event :=
  EWarn "⚠️ Invalid input. Expected one of: yes, no".

(** The verdict on a non-empty, case-folded answer to a yes / no prompt, as
    the specification words it: three spellings of each truth value, a
    warning and the retry sentinel for anything else. *)
Definition yes_no_verdict (norm : string) (w : world) : outcome result :=
  if PyStr.mem norm ["yes"; "true"; "1"] then Ret (RVal (VBool true)) w
  else if PyStr.mem norm ["no"; "false"; "2"] then Ret (RVal (VBool false)) w
  else Ret RRetry (after_events w [expected_yes_no]).

(** The tokens of [pre] that end up in [unknown]. *)
Definition unknown_of (p : OptionPrompt.t) (pre : list string) : list string :=
  if OptionPrompt.allow_custom p then []
  else filter (fun t => negb (recognised p t)) pre.

(** What the shortcut [sc] selects. *)
Definition shortcut_selection (p : OptionPrompt.t) (sc : string) : list value :=
  if String.eqb sc "all" then PyDict.values (OptionPrompt._option_dict p)
  else [].





(** One turn of the loop that does not return: the validation step gave
    the retry sentinel, or it gave a value that the user then declined. *)
Inductive failed_round (confirm : bool) (_do_ask : M result)
  : world -> world -> Prop :=
| failed_invalid (w w1 : world) :
    _do_ask w = Ret RRetry w1 ->
    failed_round confirm _do_ask w w1
| failed_declined (w w1 w2 : world) (value : result) :
    _do_ask w = Ret value w1 ->
    value <> RRetry ->
    confirm = true ->
    PromptBase._confirm value w1 = Ret false w2 ->
    failed_round confirm _do_ask w w2.

Inductive failed_rounds (confirm : bool) (_do_ask : M result)
  : nat -> world -> world -> Prop :=
| failed_rounds_O (w : world) : failed_rounds confirm _do_ask 0 w w
| failed_rounds_S (n : nat) (w w1 w2 : world) :
    failed_round confirm _do_ask w w1 ->
    failed_rounds confirm _do_ask n w1 w2 ->
    failed_rounds confirm _do_ask (S n) w w2.

(** One turn of the loop that returns [value]: a valid answer, confirmed
    (by an ASCII answer) when confirmation is asked for. *)
Inductive good_round (confirm : bool) (_do_ask : M result)
  : world -> result -> world -> Prop :=
| good_plain (w w1 : world) (value : result) :
    _do_ask w = Ret value w1 ->
    value <> RRetry ->
    confirm = false ->
    good_round confirm _do_ask w value w1
| good_confirmed (w w1 w2 : world) (value : result) :
    _do_ask w = Ret value w1 ->
    value <> RRetry ->
    confirm = true ->
    ascii_answer w1 ->
    PromptBase._confirm value w1 = Ret true w2 ->
    good_round confirm _do_ask w value w2.

(** The question [_confirm] puts for the text [display]. *)
Definition confirm_question (display : string) : string :=
  "⚠️ Confirm selection:" ++ nl ++ display ++ nl ++ "Confirm? [Y/n]".

(** The answer declines: it is ["n"] or ["no"] once stripped and folded. *)
Definition declines (answer : option string) : bool :=
  PyStr.mem (PyStr.lower (PyStr.strip (or_empty answer))) ["n"; "no"].

Definition is_str (v : value) : bool :=
  match v with
  | VStr _ => true
  | _ => false
  end.

(** The case rule applied to a text. *)
Definition fold_case (case_sensitive : bool) (s : string) : string :=
  if case_sensitive then s else PyStr.lower s.

(** [k] equals [s] under the case rule. *)
Definition same_up_to_case (case_sensitive : bool) (s k : string) : bool :=
  String.eqb (fold_case case_sensitive s) (fold_case case_sensitive k).

(** What a token stands for when no shortcut is involved: the index map is
    asked first, then the value map, and what is left is a custom entry. *)
Definition resolve (p : OptionPrompt.t) (token : string) : value :=
  match PyDict.get String.eqb token (OptionPrompt._index_map p) with
  | Some v => v
  | None =>
      match PyDict.get value_eqb (VStr token) (OptionPrompt._value_map p) with
      | Some v => v
      | None => VStr token
      end
  end.

(** A shortcut word. *)
Definition is_shortcut (token : string) : bool :=
  PyStr.mem token ["all"; "none"].

(** The line the menu display prints for the key numbered [idx]. *)
Definition menu_line (p : OptionPrompt.t) (idx : nat) (key : string) : event :=
  let text := " [" ++ PyStr.of_nat idx ++ "] " ++ key in
  if PyStr.mem key (OptionPrompt._default_keys p)
  then EBold (text ++ " [default]")
  else EPlain text.

Fixpoint menu_lines (p : OptionPrompt.t) (idx : nat) (keys : list string)
  : list event :=
  match keys with
  | [] => []
  | key :: r => menu_line p idx key :: menu_lines p (S idx) r
  end.

Definition is_digit (c : ascii) : bool :=
  let n := nat_of_ascii c in (48 <=? n)%nat && (n <=? 57)%nat.

Definition is_comma (c : ascii) : bool := Ascii.eqb c ",".

(** An answer that ends the repeated free-form mode. *)
Definition ends_collection (raw : string) : bool :=
  PyStr.mem (PyStr.lower raw) ["done"; ""].

(** The condition under which [match] stops at an entry of the catalog. *)
Definition entry_matches (cs : bool) (cmp : string) (kv : string * value) : bool :=
  value_eqb (VStr cmp) (OptionPrompt.key_norm cs (fst kv))
  || value_eqb (VStr cmp) (OptionPrompt.value_norm cs (snd kv)).

(** What a yes / no prompt makes of empty input, by its default. *)
Definition yes_no_default_outcome (default : option string) (w : world)
  : outcome result :=
  match default with
  | None => Ret (RVal VNone) w
  | Some d =>
      if PyStr.mem (PyStr.lower d) ["yes"; "true"] then Ret (RVal (VBool true)) w
      else if PyStr.mem (PyStr.lower d) ["no"; "false"]
           then Ret (RVal (VBool false)) w
           else Raise (IndexError "list index out of range") w
  end.

(** The echo of the entries collected so far, numbered from [i]. *)
Fixpoint entry_lines (i : nat) (values : list string) : list event :=
  match values with
  | [] => []
  | val :: r => EPlain (" " ++ PyStr.of_nat i ++ ". " ++ val) :: entry_lines (S i) r
  end.

(** Everything the repeated mode puts on the console while it collects the
    lines [rs] on top of [acc] and then meets a line that ends collection:
    a question per line, and after each accepted line the whole list. *)
Fixpoint collect_trace (question : string) (acc rs : list string) : list event :=
  match rs with
  | [] => [EAsk question]
  | r :: rest =>
      (EAsk question :: EPlain "Current entries:" :: entry_lines 1 (acc ++ [r]))
        ++ EPlainBlank :: collect_trace question (acc ++ [r]) rest
  end.

Definition collect_question (self : FreeformPrompt.t) : string :=
  PromptBase.prompt (FreeformPrompt.base self) ++ " (or type 'done' to finish): ".

(** The console answers with the lines [rs], none of which ends collection,
    and then with a line that does. *)
Definition answers_then_done (w : world) (rs : list string) : Prop :=
  (forall j r, nth_error rs j = Some r ->
               answers w (asked w + j) = Some r /\ ends_collection r = false)
  /\ exists t, answers w (asked w + List.length rs) = Some t
               /\ ends_collection t = true.

(** A token that ends up in the selection: one the catalog resolves, or
    any token when custom values are allowed. *)
Definition kept (p : OptionPrompt.t) (t : string) : bool :=
  recognised p t || OptionPrompt.allow_custom p.

(** More sample prompts and calls. *)
Definition colours (case_sensitive multi allow_custom : bool) (display : string)
           (default : py_default) : OptionPrompt.args :=
  OptionPrompt.mkArgs "Colour?" 3 false (OList ["Red"; "green"; "RED"])
    default case_sensitive multi allow_custom display.

Definition colour_call : router_args :=
  mkRouter "Colour?" (OList ["Red"; "green"; "RED"]) (DVal (VStr "RED"))
           false false "none" false 3 false "menu".

Example lower_yes : PyStr.lower "YeS, No" = "yes, no".
Proof. reflexivity. Qed.

Example strip_blank : PyStr.strip "  a b	 " = "a b".
Proof. reflexivity. Qed.

Example split_commas : PyStr.split "," "1, x,,all" = ["1"; " x"; ""; "all"].
Proof. reflexivity. Qed.

Example str_of_ints : (PyStr.of_Z 12, PyStr.of_Z (-7), PyStr.of_Z 0) = ("12", "-7", "0").
Proof. reflexivity. Qed.


(* ------------------------------------------------------------------------ *)
(** ** Facts about the primitives                                            *)
(* ------------------------------------------------------------------------ *)

Section StrFacts.

Lemma unorm_not_nil (d : uint) : unorm d <> Nil.
Proof. induction d; simpl; try discriminate; assumption. Qed.

Lemma to_uint_not_nil (n : nat) : Nat.to_uint n <> Nil.
Proof.
  rewrite <- (DecimalNat.Unsigned.of_to n) at 1.
  rewrite DecimalNat.Unsigned.to_of. apply unorm_not_nil.
Qed.

(** [str] is injective on the naturals. *)
Lemma of_nat_inj (n m : nat) : PyStr.of_nat n = PyStr.of_nat m -> n = m.
Proof.
  unfold PyStr.of_nat. intros H.
  apply (f_equal NilZero.uint_of_string) in H.
  rewrite !NilZero.usu in H by apply to_uint_not_nil.
  injection H as H. now apply DecimalNat.Unsigned.to_uint_inj.
Qed.

Lemma of_nat_seq_nodup (start len : nat) :
  NoDup (map PyStr.of_nat (seq start len)).
Proof.
  apply Injective_map_NoDup.
  - intros x y. apply of_nat_inj.
  - apply seq_NoDup.
Qed.

Lemma mem_In (x : string) (l : list string) :
  PyStr.mem x l = true <-> In x l.
Proof.
  unfold PyStr.mem. rewrite existsb_exists. split.
  - intros [y [Hin Heq]]. apply String.eqb_eq in Heq. now subst.
  - intros Hin. exists x. split; [assumption | apply String.eqb_refl].
Qed.

End StrFacts.

Section DictFacts.
Context {V : Type}.
Implicit Types (d : list (string * V)) (k : string) (v : V).

Local Open Scope list_scope.

Local Abbreviation get := (PyDict.get String.eqb).
Local Abbreviation set := (PyDict.set String.eqb).
Local Abbreviation of_items := (PyDict.of_items String.eqb).

Lemma get_app k d d' :
  get k (d ++ d') = match get k d with Some v => Some v | None => get k d' end.
Proof.
  induction d as [| [k0 v0] d IH]; simpl; [reflexivity |].
  destruct (String.eqb k k0); [reflexivity | exact IH].
Qed.

Lemma get_None_notin k d : get k d = None <-> ~ In k (PyDict.keys d).
Proof.
  induction d as [| [k0 v0] d IH]; simpl.
  - split; [intros _ [] | reflexivity].
  - destruct (String.eqb_spec k k0) as [-> | Hne].
    + split; [discriminate | intros H; exfalso; apply H; now left].
    + rewrite IH. split.
      * intros H [Heq | Hin]; [now apply Hne | now apply H].
      * intros H Hin. apply H. now right.
Qed.

Lemma get_Some_in k v d : get k d = Some v -> In (k, v) d.
Proof.
  induction d as [| [k0 v0] d IH]; simpl; [discriminate |].
  destruct (String.eqb_spec k k0) as [-> | Hne].
  - intros [= ->]. now left.
  - intros H. right. now apply IH.
Qed.

(** A key that is not there yet goes to the end. *)
Lemma set_fresh k v d : get k d = None -> set k v d = d ++ [(k, v)].
Proof.
  induction d as [| [k0 v0] d IH]; simpl; [reflexivity |].
  destruct (String.eqb k k0); [discriminate |].
  intros H. now rewrite IH.
Qed.

(** Assignment never changes the order of the keys already present. *)
Lemma keys_set k v d :
  PyDict.keys (set k v d)
  = if PyDict.mem String.eqb k d then PyDict.keys d else PyDict.keys d ++ [k].
Proof.
  unfold PyDict.mem.
  induction d as [| [k0 v0] d IH]; simpl; [reflexivity |].
  destruct (String.eqb k k0); simpl; [reflexivity |].
  rewrite IH. now destruct (get k d).
Qed.

Lemma set_keys_nodup k v d :
  NoDup (PyDict.keys d) -> NoDup (PyDict.keys (set k v d)).
Proof.
  intros Hnd. rewrite keys_set. unfold PyDict.mem.
  destruct (get k d) eqn:Hg; [assumption |].
  apply get_None_notin in Hg.
  apply NoDup_app; [assumption | repeat constructor; intros [] | ].
  intros x Hx [<- | []]. now apply Hg.
Qed.

Lemma fold_set_nodup (items : list (string * V)) d :
  NoDup (PyDict.keys d) ->
  NoDup (PyDict.keys
           (fold_left (fun d kv => set (fst kv) (snd kv) d) items d)).
Proof.
  revert d. induction items as [| [k v] items IH]; intros d Hnd; simpl.
  - assumption.
  - apply IH. now apply set_keys_nodup.
Qed.

(** Catalog invariant: the keys of a dictionary are unique. *)
Lemma of_items_nodup (items : list (string * V)) :
  NoDup (PyDict.keys (of_items items)).
Proof. apply fold_set_nodup. constructor. Qed.

Lemma fold_set_distinct (items : list (string * V)) d :
  NoDup (map fst items) ->
  (forall k, In k (map fst items) -> get k d = None) ->
  fold_left (fun d kv => set (fst kv) (snd kv) d) items d = d ++ items.
Proof.
  revert d. induction items as [| [k v] items IH]; intros d Hnd Hfresh; simpl.
  - now rewrite app_nil_r.
  - inversion Hnd as [| ? ? Hnotin Hnd']; subst.
    rewrite set_fresh by (apply Hfresh; now left).
    rewrite IH; [now rewrite <- app_assoc | assumption |].
    intros k' Hin. rewrite get_app, (Hfresh k') by now right.
    simpl. destruct (String.eqb_spec k' k) as [-> | _]; [| reflexivity].
    now elim Hnotin.
Qed.

(** Items with pairwise different keys are stored as they come. *)
Lemma of_items_distinct (items : list (string * V)) :
  NoDup (map fst items) -> of_items items = items.
Proof.
  intros Hnd. unfold PyDict.of_items.
  now rewrite fold_set_distinct by (assumption || reflexivity).
Qed.

Lemma get_nth k v d i :
  NoDup (PyDict.keys d) -> nth_error d i = Some (k, v) -> get k d = Some v.
Proof.
  revert i. induction d as [| [k0 v0] d IH]; intros i Hnd Hnth.
  - now destruct i.
  - inversion Hnd as [| ? ? Hnotin Hnd']; subst. destruct i; simpl in *.
    + injection Hnth as -> ->. now rewrite String.eqb_refl.
    + destruct (String.eqb_spec k k0) as [-> | _].
      * exfalso. apply Hnotin. apply nth_error_In in Hnth.
        now apply (in_map fst) in Hnth.
      * now apply (IH i).
Qed.

End DictFacts.

(* ------------------------------------------------------------------------ *)
(** ** Construction of an option prompt                                      *)
(* ------------------------------------------------------------------------ *)

Section ConstructionFacts.
Local Open Scope list_scope.

Lemma getitem_get (k : string) (d : list (string * value)) (v : value) :
  PyDict.get String.eqb k d = Some v -> OptionPrompt.getitem k d = inr v.
Proof. unfold OptionPrompt.getitem. now intros ->. Qed.

Lemma get_of_key (k : string) (d : list (string * value)) :
  In k (PyDict.keys d) -> exists v, PyDict.get String.eqb k d = Some v.
Proof.
  intros Hin. destruct (PyDict.get String.eqb k d) as [v |] eqn:Hg.
  - now exists v.
  - apply get_None_notin in Hg. contradiction.
Qed.

(** The comprehension of the index map succeeds on keys of the catalog and
    pairs [str(i + 1)] with the catalog value of the [i]-th key. *)
Lemma index_items_spec (d : list (string * value)) (ks : list string) :
  forall i,
    (forall k, In k ks -> In k (PyDict.keys d)) ->
    exists items,
      OptionPrompt.index_items d i ks = inr items /\
      map fst items = map PyStr.of_nat (seq (i + 1) (List.length ks)) /\
      map (fun kv => Some (snd kv)) items
      = map (fun k => PyDict.get String.eqb k d) ks.
Proof.
  induction ks as [| k ks IH]; intros i Hks; simpl.
  - exists []. now repeat split.
  - destruct (get_of_key k d) as [v Hv]; [apply Hks; now left |].
    destruct (IH (S i)) as (rest & Hrest & Hfst & Hsnd).
    { intros k' Hin. apply Hks. now right. }
    exists ((PyStr.of_nat (i + 1), v) :: rest).
    rewrite (getitem_get _ _ _ Hv). simpl. rewrite Hrest. simpl.
    repeat split.
    + rewrite Hfst. now replace (S i + 1)%nat with (S (i + 1)) by lia.
    + now rewrite Hsnd, Hv.
Qed.

Lemma normalise_nodup (o : py_options) (od : list (string * value)) :
  OptionPrompt.normalise_options o = inr od -> NoDup (PyDict.keys od).
Proof.
  destruct o as [l | l | items | v]; simpl.
  1-3: intros [= <-]; apply of_items_nodup.
  destruct v; try discriminate. intros [= <-]. apply of_items_nodup.
Qed.

(** What [new] stores in the object it returns. *)
Lemma new_inv (a : OptionPrompt.args) (p : OptionPrompt.t) :
  OptionPrompt.new a = inr p ->
  exists od im,
    OptionPrompt.normalise_options (OptionPrompt.a_options a) = inr od /\
    OptionPrompt.build_index_map od (PyDict.keys od) = inr im /\
    p = OptionPrompt.mk
          (PromptBase.new (OptionPrompt.a_prompt a) (OptionPrompt.a_retries a)
                          (OptionPrompt.a_confirm a))
          (OptionPrompt.a_options a) (OptionPrompt.a_default a)
          (OptionPrompt.a_case_sensitive a) (OptionPrompt.a_multi a)
          (OptionPrompt.a_allow_custom a) (OptionPrompt.a_display a)
          od (PyDict.keys od)
          (OptionPrompt.build_value_map (OptionPrompt.a_case_sensitive a) od)
          im
          (OptionPrompt._resolve_default_keys
             (OptionPrompt.a_case_sensitive a) od (PyDict.keys od)
             (OptionPrompt.a_default a)).
Proof.
  unfold OptionPrompt.new, ebind. intros H.
  destruct (OptionPrompt.normalise_options _) as [e | od] eqn:Hod;
    [discriminate |].
  destruct (OptionPrompt.build_index_map _ _) as [e | im] eqn:Him;
    [discriminate |].
  injection H as <-. exists od, im. repeat split; assumption.
Qed.

(** Building the index map over the keys of the catalog never fails. *)
Lemma build_index_map_spec (od : list (string * value)) :
  NoDup (PyDict.keys od) ->
  exists im,
    OptionPrompt.build_index_map od (PyDict.keys od) = inr im /\
    PyDict.keys im = map PyStr.of_nat (seq 1 (List.length od)) /\
    forall i k v, nth_error od i = Some (k, v) ->
                  nth_error im i = Some (PyStr.of_nat (S i), v).
Proof.
  intros Hnd.
  destruct (index_items_spec od (PyDict.keys od) 0) as (items & Hit & Hfst & Hsnd);
    [auto |].
  unfold PyDict.keys in Hfst at 1. rewrite length_map in Hfst. simpl in Hfst.
  assert (Hdist : NoDup (map fst items)) by (rewrite Hfst; apply of_nat_seq_nodup).
  exists items. unfold OptionPrompt.build_index_map, ebind. rewrite Hit.
  rewrite (of_items_distinct items Hdist). repeat split; [exact Hfst |].
  intros i k v Hnth.
  assert (Hlt : (i < List.length od)%nat) by (apply nth_error_Some; congruence).
  assert (Hk : nth_error (map fst items) i = Some (PyStr.of_nat (S i))).
  { rewrite Hfst, nth_error_map, nth_error_seq.
    destruct (Nat.ltb_spec i (List.length od)); [reflexivity | lia]. }
  assert (Hv : nth_error (map (fun kv => Some (snd kv)) items) i = Some (Some v)).
  { rewrite Hsnd. unfold PyDict.keys. rewrite !nth_error_map, Hnth. simpl.
    f_equal. now apply (get_nth k v od i). }
  rewrite nth_error_map in Hk, Hv.
  destruct (nth_error items i) as [[k' v'] |]; simpl in *; [| discriminate].
  congruence.
Qed.

End ConstructionFacts.

(* ------------------------------------------------------------------------ *)
(** ** Properties of the index map                                           *)
(* ------------------------------------------------------------------------ *)

(** C9: for every catalog of [N] keys the index map built at construction
    has exactly [N] entries, its keys are the strings [str(1)] .. [str(N)]
    in this order without repetition, and the entry [str(i + 1)] holds the
    underlying value of the catalog key at position [i] (counted from zero);
    this holds in particular for every non-empty catalog. *)
Theorem index_map_exact (a : OptionPrompt.args) (p : OptionPrompt.t) :
  OptionPrompt.new a = inr p ->
  let N := List.length (OptionPrompt._option_dict p) in
  List.length (OptionPrompt._index_map p) = N /\
  PyDict.keys (OptionPrompt._index_map p) = map PyStr.of_nat (seq 1 N) /\
  NoDup (PyDict.keys (OptionPrompt._index_map p)) /\
  forall i k v,
    nth_error (OptionPrompt._option_dict p) i = Some (k, v) ->
    nth_error (OptionPrompt._display_keys p) i = Some k /\
    PyDict.get String.eqb (PyStr.of_nat (S i)) (OptionPrompt._index_map p)
    = Some v.
Proof.
  intros Hnew. destruct (new_inv a p Hnew) as (od & im & Hod & Him & ->). simpl.
  apply normalise_nodup in Hod.
  destruct (build_index_map_spec od Hod) as (im' & Him' & Hkeys & Hnth).
  rewrite Him in Him'. injection Him' as <-.
  assert (Hnd : NoDup (PyDict.keys im)) by (rewrite Hkeys; apply of_nat_seq_nodup).
  repeat split.
  - apply (f_equal (@List.length _)) in Hkeys.
    unfold PyDict.keys in Hkeys. now rewrite !length_map, length_seq in Hkeys.
  - exact Hkeys.
  - exact Hnd.
  - unfold PyDict.keys. now rewrite nth_error_map, H.
  - eapply get_nth; [exact Hnd | eapply Hnth; eassumption].
Qed.

(* ------------------------------------------------------------------------ *)
(** ** The retry loop                                                        *)
(* ------------------------------------------------------------------------ *)

(** Giving up: the error notice, the divider, then the value. *)
Lemma gives_up (A : Type) (x : A) (w : world) :
  bind (plim.error "❌ Too many invalid attempts.")
       (fun _ => bind plim.divider (fun _ => ret x)) w
  = Ret x (after_events w too_many).
Proof.
  unfold bind, plim.error, plim.divider, emit, ret, after_events, too_many.
  simpl. now rewrite <- app_assoc.
Qed.

Section LoopFacts.
Variable _do_ask : M result.

Lemma confirm_no_fuel (value : result) (w : world) :
  PromptBase._confirm value w <> OutOfFuel.
Proof.
  unfold PromptBase._confirm, bind, lift.
  destruct (PromptBase.display_of value); discriminate.
Qed.

(** The fuel [ask] passes to the loop is never used up: the loop itself
    always terminates. *)
Lemma ask_loop_fuel (fuel : nat) :
  forall (self : PromptBase.t) (w : world),
    (forall w0, _do_ask w0 <> OutOfFuel) ->
    (Z.to_nat (PromptBase.retries self - PromptBase._attempts self) < fuel)%nat ->
    PromptBase.ask_loop _do_ask fuel self w <> OutOfFuel.
Proof.
  induction fuel as [| fuel IH]; intros self w Hdo Hfuel; [lia |].
  simpl. destruct (Z.ltb_spec (PromptBase._attempts self) (PromptBase.retries self))
    as [Hlt | Hge]; [| discriminate].
  assert (Hnext : forall w1,
             PromptBase.ask_loop _do_ask fuel (PromptBase.incr_attempts self) w1
             <> OutOfFuel).
  { intros w1. apply IH; [assumption |]. simpl. lia. }
  unfold bind at 1. specialize (Hdo w).
  destruct (_do_ask w) as [value w1 | e w1 |]; [| discriminate | contradiction].
  destruct value as [| v | l]; [apply Hnext | |].
  all: destruct (PromptBase.confirm self); [| discriminate].
  all: unfold bind at 1.
  all: match goal with
       | |- context [PromptBase._confirm ?x ?y] =>
           pose proof (confirm_no_fuel x y) as Hc;
           destruct (PromptBase._confirm x y) as [ok w2 | e w2 |]
       end; [| discriminate | contradiction].
  all: destruct ok; simpl; [discriminate | apply Hnext].
Qed.

Lemma ask_total (self : PromptBase.t) (w : world) :
  (forall w0, _do_ask w0 <> OutOfFuel) ->
  PromptBase.ask _do_ask self w <> OutOfFuel.
Proof. intros Hdo. apply ask_loop_fuel; [assumption | lia]. Qed.


(** When every remaining attempt is invalid the loop gives up with [None]
    and the counter at [retries]. *)
Lemma ask_loop_exhausted (n : nat) (w w' : world) :
  retry_run _do_ask n w w' ->
  forall (fuel : nat) (self : PromptBase.t),
    PromptBase.retries self - PromptBase._attempts self = Z.of_nat n ->
    (n < fuel)%nat ->
    PromptBase.ask_loop _do_ask fuel self w
    = Ret (RVal VNone, with_attempts self (PromptBase.retries self))
          (after_events w' too_many).
Proof.
  induction 1 as [w | n w w1 w2 Hstep Hrun IH]; intros fuel self Hn Hfuel.
  - destruct fuel as [| fuel]; [lia |]. simpl.
    destruct (Z.ltb_spec (PromptBase._attempts self) (PromptBase.retries self));
      [lia |].
    rewrite gives_up. destruct self as [pr re co at_]. simpl in *.
    replace at_ with re by lia. reflexivity.
  - destruct fuel as [| fuel]; [lia |]. simpl.
    destruct (Z.ltb_spec (PromptBase._attempts self) (PromptBase.retries self));
      [| lia].
    unfold bind at 1. rewrite Hstep.
    rewrite (IH fuel (PromptBase.incr_attempts self)); [reflexivity | | lia].
    simpl. lia.
Qed.

End LoopFacts.

(** C8: for a fresh prompt with [retries = R >= 0], if each of the [R]
    attempts is answered by the retry sentinel, [ask] terminates with the
    absent value [None] (which is not the retry sentinel), the attempt
    counter equals [R], and the error notice is the last thing emitted. *)
Theorem ask_exhaustion (_do_ask : M result) (self : PromptBase.t) (w w' : world) :
  0 <= PromptBase.retries self ->
  PromptBase._attempts self = 0 ->
  retry_run _do_ask (Z.to_nat (PromptBase.retries self)) w w' ->
  exists self',
    PromptBase.ask _do_ask self w
    = Ret (RVal VNone, self') (after_events w' too_many)
    /\ PromptBase._attempts self' = PromptBase.retries self
    /\ RVal VNone <> RRetry
    /\ trace (after_events w' too_many)
       = (trace w' ++ [EError "❌ Too many invalid attempts."; EDivider])%list.
Proof.
  intros Hpos Hfresh Hrun.
  exists (with_attempts self (PromptBase.retries self)).
  repeat split; [| discriminate].
  unfold PromptBase.ask. rewrite Hfresh, Z.sub_0_r.
  apply (ask_loop_exhausted _do_ask _ w w' Hrun); [| lia].
  rewrite Hfresh. lia.
Qed.

(** C3 (as the code has it): with [retries = 0] a fresh prompt makes no
    attempt at all; whatever the validation step is, [ask] emits the error
    notice and returns [None] without asking the console anything. *)
Theorem retries_zero_no_attempt
        (_do_ask : M result) (prompt : string) (confirm : bool) (w : world) :
  PromptBase.ask _do_ask (PromptBase.new prompt 0 confirm) w
  = Ret (RVal VNone, PromptBase.new prompt 0 confirm) (after_events w too_many)
  /\ asked (after_events w too_many) = asked w.
Proof.
  split; [| reflexivity].
  unfold PromptBase.ask. simpl. apply gives_up.
Qed.

(* ------------------------------------------------------------------------ *)
(** ** The yes / no prompt                                                   *)
(* ------------------------------------------------------------------------ *)

Section YesNoFacts.
Variables (prompt : string) (default : option string).
Variables (retries : Z) (confirm : bool) (p : OptionPrompt.t).
Hypothesis Hnew : YesNoPrompt.new prompt default retries confirm = inr p.

(** The maps of every yes / no prompt. *)
Lemma yes_no_maps :
  OptionPrompt._index_map p = [("1", VBool true); ("2", VBool false)]
  /\ OptionPrompt._value_map p
     = [(VStr "yes", VBool true); (VStr "true", VBool true);
        (VStr "no", VBool false); (VStr "false", VBool false)]
  /\ OptionPrompt._display_keys p = ["yes"; "no"]
  /\ OptionPrompt.case_sensitive p = false
  /\ OptionPrompt.multi p = false
  /\ OptionPrompt.allow_custom p = false
  /\ OptionPrompt.display p = "inline".
Proof.
  destruct (new_inv _ _ Hnew) as (od & im & Hod & Him & Hp).
  simpl in Hod. injection Hod as <-.
  vm_compute in Him. injection Him as <-.
  rewrite Hp. repeat split; reflexivity.
Qed.

(** The inline prompt text is computed without any output. *)
Lemma yes_no_render (w : world) :
  exists msg, OptionPrompt._render_prompt p w = Ret msg w.
Proof.
  destruct yes_no_maps as (_ & _ & _ & _ & _ & _ & Hd).
  unfold OptionPrompt._render_prompt. rewrite Hd. simpl. eexists. reflexivity.
Qed.

(** Single-select parsing against the two maps amounts to the verdict of
    the specification. *)
Lemma yes_no_parse (raw : string) (w : world) :
  OptionPrompt._parse_input p raw w = yes_no_verdict (PyStr.lower raw) w.
Proof.
  destruct yes_no_maps as (Him & Hvm & Hdk & Hcs & Hm & Hac & _).
  unfold OptionPrompt._parse_input, yes_no_verdict.
  rewrite Him, Hvm, Hdk, Hcs, Hm, Hac.
  generalize (PyStr.lower raw) as norm. intros norm. simpl.
  destruct (String.eqb_spec norm "1") as [-> | H1]; [reflexivity |].
  destruct (String.eqb_spec norm "2") as [-> | H2]; [reflexivity |].
  destruct (String.eqb_spec norm "yes") as [-> | H3]; [reflexivity |].
  destruct (String.eqb_spec norm "true") as [-> | H4]; [reflexivity |].
  destruct (String.eqb_spec norm "no") as [-> | H5]; [reflexivity |].
  destruct (String.eqb_spec norm "false") as [-> | H6]; reflexivity.
Qed.

Lemma yes_no_do_ask (raw : string) (w : world) :
  next_answer w = Some raw -> raw <> "" ->
  exists msg,
    OptionPrompt._render_prompt p w = Ret msg w
    /\ OptionPrompt._do_ask p w
       = yes_no_verdict (PyStr.lower raw) (after_ask w msg).
Proof.
  intros Hans Hne. destruct (yes_no_render w) as [msg Hmsg].
  exists msg. split; [assumption |].
  unfold OptionPrompt._do_ask, bind. rewrite Hmsg.
  unfold plim.ask. unfold next_answer in Hans. rewrite Hans. simpl.
  destruct (String.eqb_spec raw "") as [-> | _]; [contradiction |].
  apply yes_no_parse.
Qed.

End YesNoFacts.

Lemma verdict_true (norm : string) (w : world) :
  In norm ["yes"; "true"; "1"] -> yes_no_verdict norm w = Ret (RVal (VBool true)) w.
Proof.
  intros Hin. unfold yes_no_verdict.
  now rewrite (proj2 (mem_In norm _) Hin).
Qed.

Lemma verdict_false (norm : string) (w : world) :
  In norm ["no"; "false"; "2"] -> yes_no_verdict norm w = Ret (RVal (VBool false)) w.
Proof.
  intros Hin. unfold yes_no_verdict.
  rewrite (proj2 (mem_In norm _) Hin).
  simpl in Hin. decompose [or] Hin; subst; try reflexivity; contradiction.
Qed.

Lemma verdict_retry (norm : string) (w : world) :
  ~ In norm ["yes"; "true"; "1"; "no"; "false"; "2"] ->
  yes_no_verdict norm w = Ret RRetry (after_events w [expected_yes_no]).
Proof.
  intros Hnot. unfold yes_no_verdict.
  destruct (PyStr.mem norm ["yes"; "true"; "1"]) eqn:Ht.
  { apply mem_In in Ht. exfalso. apply Hnot. simpl in *. tauto. }
  destruct (PyStr.mem norm ["no"; "false"; "2"]) eqn:Hf; [| reflexivity].
  apply mem_In in Hf. exfalso. apply Hnot. simpl in *. tauto.
Qed.

(** C10: for every yes / no prompt the non-empty answers that are accepted
    are, after case folding, exactly ["yes"], ["true"], ["1"] (giving
    [True]) and ["no"], ["false"], ["2"] (giving [False]); every other
    answer, ["y"] and ["n"] among them, gives the retry sentinel. *)
Theorem yes_no_accepted_inputs
        (prompt : string) (default : option string) (retries : Z)
        (confirm : bool) (p : OptionPrompt.t) (raw : string) (w : world) :
  YesNoPrompt.new prompt default retries confirm = inr p ->
  next_answer w = Some raw ->
  raw <> "" ->
  exists msg,
    let norm := PyStr.lower raw in
    let w1 := after_ask w msg in
    let run := OptionPrompt._do_ask p w in
    (In norm ["yes"; "true"; "1"] <-> run = Ret (RVal (VBool true)) w1)
    /\ (In norm ["no"; "false"; "2"] <-> run = Ret (RVal (VBool false)) w1)
    /\ (~ In norm ["yes"; "true"; "1"; "no"; "false"; "2"]
        <-> run = Ret RRetry (after_events w1 [expected_yes_no]))
    /\ (In norm ["y"; "n"]
        -> run = Ret RRetry (after_events w1 [expected_yes_no])).
Proof.
  intros Hnew Hans Hne.
  destruct (yes_no_do_ask _ _ _ _ _ Hnew raw w Hans Hne) as (msg & _ & Hrun).
  exists msg. cbv zeta. rewrite Hrun. clear Hrun.
  set (norm := PyStr.lower raw). set (w1 := after_ask w msg).
  assert (Hcases : In norm ["yes"; "true"; "1"] \/ In norm ["no"; "false"; "2"]
                   \/ ~ In norm ["yes"; "true"; "1"; "no"; "false"; "2"]).
  { destruct (PyStr.mem norm ["yes"; "true"; "1"]) eqn:Ht;
      [left; now apply mem_In |].
    destruct (PyStr.mem norm ["no"; "false"; "2"]) eqn:Hf;
      [right; left; now apply mem_In |].
    right; right. intros Hin.
    assert (Hsplit : In norm ["yes"; "true"; "1"] \/ In norm ["no"; "false"; "2"])
      by (simpl in *; tauto).
    destruct Hsplit as [H | H]; apply mem_In in H; congruence. }
  assert (Hexcl : In norm ["yes"; "true"; "1"] ->
                  In norm ["no"; "false"; "2"] -> False).
  { simpl. intros Ht Hf.
    decompose [or] Ht; decompose [or] Hf; subst; try discriminate;
      try contradiction; congruence. }
  repeat split.
  - apply verdict_true.
  - intros Hrun. destruct Hcases as [H | [H | H]]; [assumption | |].
    + rewrite (verdict_false _ _ H) in Hrun. discriminate.
    + rewrite (verdict_retry _ _ H) in Hrun. discriminate.
  - apply verdict_false.
  - intros Hrun. destruct Hcases as [H | [H | H]]; [| assumption |].
    + rewrite (verdict_true _ _ H) in Hrun. discriminate.
    + rewrite (verdict_retry _ _ H) in Hrun. discriminate.
  - apply verdict_retry.
  - intros Hrun Hin.
    assert (Hsplit : In norm ["yes"; "true"; "1"] \/ In norm ["no"; "false"; "2"])
      by (simpl in *; tauto).
    destruct Hsplit as [H | H].
    + rewrite (verdict_true _ _ H) in Hrun. discriminate.
    + rewrite (verdict_false _ _ H) in Hrun. discriminate.
  - intros Hin. apply verdict_retry. simpl in *. intros Hbad.
    decompose [or] Hin; decompose [or] Hbad; subst; try discriminate;
      try contradiction; congruence.
Qed.

(** C1 (as the code has it): a yes / no prompt answers [False] to ["no"] in
    any casing, and it rejects ["N"] in any casing just as it rejects
    ["maybe"]: the retry sentinel, after a warning that lists [yes, no]. *)
Theorem yes_no_scenario
        (prompt : string) (default : option string) (retries : Z)
        (confirm : bool) (p : OptionPrompt.t) (raw : string) (w : world) :
  YesNoPrompt.new prompt default retries confirm = inr p ->
  next_answer w = Some raw ->
  exists msg,
    (PyStr.lower raw = "no" ->
     OptionPrompt._do_ask p w = Ret (RVal (VBool false)) (after_ask w msg))
    /\ (PyStr.lower raw = "n" \/ raw = "maybe" ->
        OptionPrompt._do_ask p w
        = Ret RRetry
              (after_events (after_ask w msg)
                 [EWarn "⚠️ Invalid input. Expected one of: yes, no"])).
Proof.
  intros Hnew Hans.
  destruct (yes_no_render _ _ _ _ _ Hnew w) as [msg Hmsg].
  exists msg.
  assert (Hrun : raw <> "" ->
                 OptionPrompt._do_ask p w
                 = yes_no_verdict (PyStr.lower raw) (after_ask w msg)).
  { intros Hne.
    destruct (yes_no_do_ask _ _ _ _ _ Hnew raw w Hans Hne) as (msg' & Hmsg' & Hrun).
    rewrite Hmsg in Hmsg'. injection Hmsg' as <-. exact Hrun. }
  split.
  - intros Hno. rewrite Hrun by (intros ->; discriminate Hno).
    now rewrite Hno.
  - intros [Hn | ->].
    + rewrite Hrun by (intros ->; discriminate Hn). now rewrite Hn.
    + now rewrite Hrun by discriminate.
Qed.

(* ------------------------------------------------------------------------ *)
(** ** Multi-select parsing                                                  *)
(* ------------------------------------------------------------------------ *)

Section ShortcutFacts.
Local Open Scope list_scope.
Variable p : OptionPrompt.t.

Lemma recognised_false (t : string) :
  recognised p t = false ->
  PyDict.get String.eqb t (OptionPrompt._index_map p) = None
  /\ PyDict.get value_eqb (VStr t) (OptionPrompt._value_map p) = None.
Proof.
  unfold recognised, PyDict.mem. intros H. apply orb_false_iff in H.
  destruct H as [Hi Hv].
  destruct (PyDict.get String.eqb t _); [discriminate |].
  destruct (PyDict.get value_eqb (VStr t) _); [discriminate |]. now split.
Qed.

(** The loop up to the first live shortcut: recognised tokens and custom
    entries are thrown away, unknown tokens are kept for the warning. *)
Lemma scan_tokens_shortcut (sc : string) (post : list string) :
  In sc ["all"; "none"] ->
  recognised p sc = false ->
  forall (pre : list string) (selected : list value) (unknown : list string),
    (forall t, In t pre -> recognised p t = true \/ ~ In t ["all"; "none"]) ->
    OptionPrompt.scan_tokens p (pre ++ sc :: post) selected unknown
    = (shortcut_selection p sc, unknown ++ unknown_of p pre).
Proof.
  intros Hsc Hfree. induction pre as [| t pre IH]; intros selected unknown Hpre.
  - rewrite app_nil_l. cbn [OptionPrompt.scan_tokens].
    destruct (recognised_false sc Hfree) as [-> ->].
    rewrite (proj2 (mem_In sc _) Hsc). unfold unknown_of.
    destruct (OptionPrompt.allow_custom p); simpl; now rewrite app_nil_r.
  - assert (Hrest : forall t', In t' pre ->
                               recognised p t' = true \/ ~ In t' ["all"; "none"])
      by (intros t' Hin; apply Hpre; now right).
    rewrite <- app_comm_cons. cbn [OptionPrompt.scan_tokens].
    unfold unknown_of in *. cbn [filter]. unfold recognised at 1. unfold PyDict.mem.
    destruct (PyDict.get String.eqb t (OptionPrompt._index_map p)) eqn:Hi.
    { rewrite IH by assumption. simpl. now destruct (OptionPrompt.allow_custom p). }
    destruct (PyDict.get value_eqb (VStr t) (OptionPrompt._value_map p)) eqn:Hv.
    { rewrite IH by assumption. simpl. now destruct (OptionPrompt.allow_custom p). }
    assert (Hnot : PyStr.mem t ["all"; "none"] = false).
    { destruct (PyStr.mem t ["all"; "none"]) eqn:Hm; [| reflexivity].
      apply mem_In in Hm. destruct (Hpre t (or_introl eq_refl)) as [Hr | Hn].
      - unfold recognised, PyDict.mem in Hr. rewrite Hi, Hv in Hr. discriminate.
      - contradiction. }
    rewrite Hnot. simpl.
    destruct (OptionPrompt.allow_custom p); rewrite IH by assumption;
      [reflexivity |].
    now rewrite <- app_assoc.
Qed.

End ShortcutFacts.

(** C4 (as the code has it): in multi-select parsing of an ASCII input,
    when the first token
    that is a shortcut (["all"] or ["none"], not shadowed by an index, key
    or alias of the catalog) is reached, the tokens after it are ignored and
    the selection accumulated before it is replaced: by every catalog value
    for ["all"], by the empty list for ["none"].  That list is the result
    when custom values are allowed or every earlier token was recognised;
    an unrecognised earlier token still rejects the whole input. *)
Theorem shortcut_overrides
        (p : OptionPrompt.t) (raw sc : string) (pre post : list string)
        (w : world) :
  OptionPrompt.multi p = true ->
  is_ascii raw = true ->
  In sc ["all"; "none"] ->
  recognised p sc = false ->
  OptionPrompt.tokens_of
    (if OptionPrompt.case_sensitive p then raw else PyStr.lower raw)
  = (pre ++ sc :: post)%list ->
  (forall t, In t pre -> recognised p t = true \/ ~ In t ["all"; "none"]) ->
  OptionPrompt._parse_input p raw w
  = match unknown_of p pre with
    | [] => Ret (RList (shortcut_selection p sc)) w
    | unknown =>
        Ret RRetry
            (after_events w
               [EWarn ("⚠️ Invalid input: " ++ PyStr.join ", " unknown)])
    end.
Proof.
  intros Hmulti _ Hsc Hfree Htok Hpre.
  unfold OptionPrompt._parse_input. rewrite Hmulti, Htok.
  rewrite (scan_tokens_shortcut p sc post Hsc Hfree pre [] [] Hpre). simpl.
  now destruct (unknown_of p pre).
Qed.

(* ------------------------------------------------------------------------ *)
(** ** Default resolution                                                    *)
(* ------------------------------------------------------------------------ *)

Lemma truthy_nonempty (k : string) : k <> "" -> PyStr.truthy k = true.
Proof. destruct k; [contradiction | reflexivity]. Qed.

(** An integer in range is matched by position, counted from zero. *)
Lemma match_default_int
      (cs : bool) (od : list (string * value)) (keys : list string) (d : Z) :
  0 <= d < Z.of_nat (List.length keys) ->
  OptionPrompt.match_default cs od keys (VInt d) = nth_error keys (Z.to_nat d).
Proof.
  intros [Hlo Hhi]. unfold OptionPrompt.match_default.
  destruct (Z.leb_spec 0 d); [| lia]. destruct (Z.ltb_spec d (Z.of_nat (List.length keys)));
    [reflexivity | lia].
Qed.

(** C5 (as the code has it): an integer default [d] with [0 <= d < N] is a
    position counted from zero; it resolves to the catalog key at position
    [d] (the key the menu shows as number [d + 1]), for every such key that
    is not the empty string. *)
Theorem integer_default_zero_based
        (a : OptionPrompt.args) (p : OptionPrompt.t) (d : Z) :
  OptionPrompt.new a = inr p ->
  OptionPrompt.a_default a = DVal (VInt d) ->
  0 <= d < Z.of_nat (List.length (OptionPrompt._display_keys p)) ->
  exists k,
    nth_error (OptionPrompt._display_keys p) (Z.to_nat d) = Some k
    /\ (k <> "" -> OptionPrompt._default_keys p = [k]).
Proof.
  intros Hnew Hdef Hrange.
  destruct (new_inv a p Hnew) as (od & im & _ & _ & ->). simpl in *.
  destruct (nth_error (PyDict.keys od) (Z.to_nat d)) as [k |] eqn:Hnth.
  - exists k. split; [reflexivity |]. intros Hk.
    rewrite Hdef. unfold OptionPrompt._resolve_default_keys.
    rewrite match_default_int, Hnth by assumption.
    unfold OptionPrompt.keep_truthy. now rewrite truthy_nonempty.
  - apply nth_error_None in Hnth. lia.
Qed.

(* ------------------------------------------------------------------------ *)
(** ** Free-form prompt, single mode                                         *)
(* ------------------------------------------------------------------------ *)

(** C7 (as the code has it): in single mode the line is not trimmed; an
    empty line (or no line at all) gives the retry sentinel, and every
    non-empty line, a blank one included, is returned verbatim. *)
Theorem freeform_single_verbatim
        (fuel : nat) (self : FreeformPrompt.t) (w : world) :
  FreeformPrompt.multi self = false ->
  let w1 := after_ask w (PromptBase.prompt (FreeformPrompt.base self) ++ ": ") in
  (next_answer w = None \/ next_answer w = Some "" ->
   FreeformPrompt._do_ask fuel self w = Ret RRetry w1)
  /\ (forall raw, next_answer w = Some raw -> raw <> "" ->
                  FreeformPrompt._do_ask fuel self w = Ret (RVal (VStr raw)) w1).
Proof.
  intros Hsingle w1. unfold FreeformPrompt._do_ask, next_answer.
  rewrite Hsingle. unfold bind, plim.ask. split.
  - intros [-> | ->]; reflexivity.
  - intros raw -> Hne. now rewrite truthy_nonempty.
Qed.

(* ------------------------------------------------------------------------ *)
(** ** Empty input                                                           *)
(* ------------------------------------------------------------------------ *)

(** With a default that is given but matches nothing, the single-select
    branch indexes the empty list of default keys; the multi-select branch
    and the branch for no default at all both return normally. *)
Lemma handle_empty_unmatched (p : OptionPrompt.t) :
  OptionPrompt._default_keys p = [] ->
  OptionPrompt._handle_empty p
  = if OptionPrompt.is_none (OptionPrompt.default p)
    then inr (if OptionPrompt.multi p then RList [] else RVal VNone)
    else if OptionPrompt.multi p then inr (RList [])
         else inl (IndexError "list index out of range").
Proof.
  intros Hkeys. unfold OptionPrompt._handle_empty. rewrite Hkeys.
  destruct (OptionPrompt.is_none _), (OptionPrompt.multi p); reflexivity.
Qed.

(** C2 (where the code departs from it): a single-select prompt over the
    fruit catalog with the unmatched default ["Mango"] is constructed, with
    no default key selected; on empty input it raises [IndexError], where
    the same prompt without a default would have returned [None]. *)
Theorem unmatched_default_empty_input_raises :
  exists p q,
    OptionPrompt.new (fruit false (DVal (VStr "Mango"))) = inr p
    /\ OptionPrompt._default_keys p = []
    /\ OptionPrompt._do_ask p (script [""])
       = Raise (IndexError "list index out of range")
               (after_ask (script [""]) "Fruit? [Apple/Banana/Cherry]: ")
    /\ OptionPrompt.new (fruit false (DVal VNone)) = inr q
    /\ OptionPrompt._do_ask q (script [""])
       = Ret (RVal VNone)
             (after_ask (script [""]) "Fruit? [Apple/Banana/Cherry]: ").
Proof.
  do 2 eexists. split; [vm_compute; reflexivity |].
  split; [reflexivity |]. split; [reflexivity |].
  split; [vm_compute; reflexivity | reflexivity].
Qed.

(** The error of C2 leaves [ask] as it is: nothing in the loop catches it. *)
Lemma unmatched_default_ask_raises :
  exists p,
    OptionPrompt.new (fruit false (DVal (VStr "Mango"))) = inr p
    /\ OptionPrompt.ask p (script [""])
       = Raise (IndexError "list index out of range")
               (after_ask (script [""]) "Fruit? [Apple/Banana/Cherry]: ").
Proof. eexists. split; [vm_compute; reflexivity | reflexivity]. Qed.

(* ------------------------------------------------------------------------ *)
(** ** The facade                                                            *)
(* ------------------------------------------------------------------------ *)

Section RaiseFacts.


Lemma emit_ret (ev : event) (w : world) :
  emit ev w = Ret tt (after_events w [ev]).
Proof. reflexivity. Qed.















(** Construction succeeds on every list of strings. *)
Lemma new_total (a : OptionPrompt.args) (l : list string) :
  OptionPrompt.a_options a = OList l ->
  exists p, OptionPrompt.new a = inr p.
Proof.
  intros Hshape. unfold OptionPrompt.new.
  destruct (OptionPrompt.normalise_options (OptionPrompt.a_options a))
    as [e | od] eqn:Hod.
  - rewrite Hshape in Hod. discriminate Hod.
  - destruct (build_index_map_spec od (normalise_nodup _ _ Hod))
      as (im & Him & _).
    unfold ebind. rewrite Him. eauto.
Qed.

End RaiseFacts.



(* ------------------------------------------------------------------------ *)
(** ** Scenarios of the specification                                        *)
(* ------------------------------------------------------------------------ *)

Example scenario_default_banana :
  exists p,
    OptionPrompt.new (fruit false (DVal (VStr "Banana"))) = inr p
    /\ OptionPrompt._do_ask p (script [""])
       = Ret (RVal (VInt 2))
             (after_ask (script [""])
                        "Fruit? [Apple/Banana/Cherry] (default: Banana): ").
Proof. eexists. split; [vm_compute; reflexivity | reflexivity]. Qed.

Example scenario_multi_select :
  exists p,
    OptionPrompt.new (fruit true (DVal VNone)) = inr p
    /\ OptionPrompt._parse_input p "1, cherry" (script [])
       = Ret (RList [VInt 1; VInt 3]) (script [])
    /\ OptionPrompt._parse_input p "1, bogus" (script [])
       = Ret RRetry (after_events (script []) [EWarn "⚠️ Invalid input: bogus"]).
Proof. eexists. split; [vm_compute; reflexivity | split; reflexivity]. Qed.

(* ------------------------------------------------------------------------ *)
(** ** Where the code differs from the wording                               *)
(* ------------------------------------------------------------------------ *)

(** C1, as worded, fails: the answer ["N"] is not accepted as [False]; it
    is rejected with the warning and the retry sentinel. *)
Lemma yes_no_rejects_N :
  exists p,
    YesNoPrompt.new "Proceed?" None 3 false = inr p
    /\ OptionPrompt._do_ask p (script ["N"])
       = Ret RRetry
             (after_events (after_ask (script ["N"]) "Proceed? [yes/no]: ")
                           [expected_yes_no])
    /\ ~ (exists w', OptionPrompt._do_ask p (script ["N"])
                     = Ret (RVal (VBool false)) w').
Proof.
  eexists. split; [vm_compute; reflexivity |].
  split; [reflexivity |]. intros [w' H]. discriminate H.
Qed.

(** C3, as worded, fails: with [retries = 0] the console is never asked,
    although an answer was ready. *)
Lemma retries_zero_asks_nothing :
  exists p r w',
    YesNoPrompt.new "Proceed?" None 0 false = inr p
    /\ OptionPrompt.ask p (script ["yes"]) = Ret r w'
    /\ fst r = RVal VNone
    /\ asked w' = 0%nat
    /\ asked w' <> 1%nat
    /\ trace w' = too_many.
Proof.
  do 3 eexists. split; [vm_compute; reflexivity |].
  split; [vm_compute; reflexivity |].
  repeat split. discriminate.
Qed.

(** C4, as worded, fails: ["all"] after an unknown token does not give the
    full set of values; the whole input is rejected. *)
Lemma all_after_unknown_rejected :
  exists p,
    OptionPrompt.new (fruit true (DVal VNone)) = inr p
    /\ OptionPrompt.tokens_of (PyStr.lower "bogus, all") = ["bogus"; "all"]
    /\ OptionPrompt._parse_input p "bogus, all" (script [])
       = Ret RRetry (after_events (script []) [EWarn "⚠️ Invalid input: bogus"])
    /\ ~ (exists w', OptionPrompt._parse_input p "bogus, all" (script [])
                     = Ret (RList (PyDict.values (OptionPrompt._option_dict p))) w').
Proof.
  eexists. split; [vm_compute; reflexivity |].
  split; [reflexivity |]. split; [reflexivity |].
  intros [w' H]. discriminate H.
Qed.

(** C5, as worded, fails: over three keys the integer default [1] selects
    the second key, not the first, and the integer default [3] selects
    nothing. *)
Lemma integer_default_not_one_based :
  exists p q,
    OptionPrompt.new (fruit false (DVal (VInt 1))) = inr p
    /\ nth_error (OptionPrompt._display_keys p) (1 - 1) = Some "Apple"
    /\ OptionPrompt._default_keys p = ["Banana"]
    /\ OptionPrompt._default_keys p <> ["Apple"]
    /\ OptionPrompt.new (fruit false (DVal (VInt 3))) = inr q
    /\ nth_error (OptionPrompt._display_keys q) (3 - 1) = Some "Cherry"
    /\ OptionPrompt._default_keys q = []
    /\ OptionPrompt._default_keys q <> ["Cherry"].
Proof.
  do 2 eexists. split; [vm_compute; reflexivity |].
  split; [reflexivity |]. split; [reflexivity |]. split; [discriminate |].
  split; [vm_compute; reflexivity |].
  split; [reflexivity |]. split; [reflexivity | discriminate].
Qed.


(** C7, as worded, fails: a line of blanks is empty after trimming, yet it
    is returned verbatim and not answered by the retry sentinel. *)
Lemma freeform_blank_line_accepted :
  PyStr.strip "   " = ""
  /\ FreeformPrompt._do_ask 0 (FreeformPrompt.new "Name" false 3 false)
                            (script ["   "])
     = Ret (RVal (VStr "   ")) (after_ask (script ["   "]) "Name: ")
  /\ FreeformPrompt._do_ask 0 (FreeformPrompt.new "Name" false 3 false)
                            (script ["   "])
     <> Ret RRetry (after_ask (script ["   "]) "Name: ").
Proof. repeat split. discriminate. Qed.

(* ------------------------------------------------------------------------ *)
(** ** The theorems at work on concrete prompts                              *)
(* ------------------------------------------------------------------------ *)

Lemma yes_no_scenario_witness :
  exists p msg,
    YesNoPrompt.new "Proceed?" None 3 false = inr p
    /\ OptionPrompt._do_ask p (script ["No"])
       = Ret (RVal (VBool false)) (after_ask (script ["No"]) msg).
Proof.
  eexists.
  destruct (yes_no_scenario "Proceed?" None 3 false _ "No" (script ["No"])
              ltac:(vm_compute; reflexivity) ltac:(reflexivity))
    as (msg & Hno & _).
  exists msg. split; [reflexivity | apply Hno; reflexivity].
Defined.

Lemma shortcut_overrides_witness :
  exists p,
    OptionPrompt.new (fruit true (DVal VNone)) = inr p
    /\ OptionPrompt._parse_input p "1, ALL, bogus" (script [])
       = Ret (RList [VInt 1; VInt 2; VInt 3]) (script []).
Proof.
  eexists. split; [vm_compute; reflexivity |].
  refine (shortcut_overrides _ "1, ALL, bogus" "all" ["1"] ["bogus"] (script [])
            _ _ _ _ _ _).
  - reflexivity.
  - reflexivity.
  - simpl. auto.
  - reflexivity.
  - reflexivity.
  - intros t [<- | []]. left. reflexivity.
Defined.

Lemma integer_default_zero_based_witness :
  exists p k,
    OptionPrompt.new (fruit false (DVal (VInt 1))) = inr p
    /\ nth_error (OptionPrompt._display_keys p) (Z.to_nat 1) = Some k
    /\ (k <> "" -> OptionPrompt._default_keys p = [k]).
Proof.
  eexists.
  destruct (integer_default_zero_based (fruit false (DVal (VInt 1))) _ 1
              ltac:(vm_compute; reflexivity) ltac:(reflexivity)
              ltac:(simpl; lia))
    as (k & Hk & Hkeys).
  exists k. split; [reflexivity | split; assumption].
Defined.


Lemma freeform_single_verbatim_witness :
  FreeformPrompt._do_ask 0 (FreeformPrompt.new "Name" false 3 false)
                         (script ["  Ada "])
  = Ret (RVal (VStr "  Ada ")) (after_ask (script ["  Ada "]) "Name: ")
  /\ FreeformPrompt._do_ask 0 (FreeformPrompt.new "Name" false 3 false)
                            (script [""])
     = Ret RRetry (after_ask (script [""]) "Name: ").
Proof.
  split.
  - apply (proj2 (freeform_single_verbatim
                    0 (FreeformPrompt.new "Name" false 3 false)
                    (script ["  Ada "]) eq_refl) "  Ada ");
      [reflexivity | discriminate].
  - apply (proj1 (freeform_single_verbatim
                    0 (FreeformPrompt.new "Name" false 3 false)
                    (script [""]) eq_refl)).
    right. reflexivity.
Defined.

Lemma ask_exhaustion_witness :
  exists p self',
    YesNoPrompt.new "Proceed?" None 2 false = inr p
    /\ PromptBase.ask (OptionPrompt._do_ask p) (OptionPrompt.base p)
                      (script ["maybe"; "N"])
       = Ret (RVal VNone, self')
             (after_events
                (after_events
                   (after_ask
                      (after_events
                         (after_ask (script ["maybe"; "N"]) "Proceed? [yes/no]: ")
                         [expected_yes_no])
                      "Proceed? [yes/no]: ")
                   [expected_yes_no])
                too_many)
    /\ PromptBase._attempts self' = 2.
Proof.
  eexists.
  assert (Hnew : YesNoPrompt.new "Proceed?" None 2 false = inr _)
    by (vm_compute; reflexivity).
  match type of Hnew with
  | _ = inr ?p =>
      destruct (ask_exhaustion (OptionPrompt._do_ask p) (OptionPrompt.base p)
                  (script ["maybe"; "N"])
                  (after_events
                     (after_ask
                        (after_events
                           (after_ask (script ["maybe"; "N"])
                                      "Proceed? [yes/no]: ")
                           [expected_yes_no])
                        "Proceed? [yes/no]: ")
                     [expected_yes_no]))
        as (self' & Hask & Hattempts & _)
  end.
  - simpl. lia.
  - reflexivity.
  - eapply retry_run_S; [cbv; reflexivity |].
    eapply retry_run_S; [cbv; reflexivity |].
    apply retry_run_O.
  - exists self'. split; [exact Hnew | split; assumption].
Defined.

Lemma index_map_exact_witness :
  exists p,
    OptionPrompt.new (fruit false (DVal VNone)) = inr p
    /\ PyDict.keys (OptionPrompt._index_map p) = ["1"; "2"; "3"]
    /\ PyDict.get String.eqb "2" (OptionPrompt._index_map p) = Some (VInt 2).
Proof.
  eexists.
  destruct (index_map_exact (fruit false (DVal VNone)) _
              ltac:(vm_compute; reflexivity))
    as (_ & Hkeys & _ & Hval).
  split; [reflexivity |]. split; [exact Hkeys |].
  exact (proj2 (Hval 1%nat "Banana" (VInt 2) eq_refl)).
Defined.

Lemma yes_no_accepted_inputs_witness :
  exists p msg,
    YesNoPrompt.new "Proceed?" (Some "no") 3 true = inr p
    /\ OptionPrompt._do_ask p (script ["TRUE"])
       = Ret (RVal (VBool true)) (after_ask (script ["TRUE"]) msg).
Proof.
  eexists.
  destruct (yes_no_accepted_inputs "Proceed?" (Some "no") 3 true _ "TRUE"
              (script ["TRUE"])
              ltac:(vm_compute; reflexivity) ltac:(reflexivity)
              ltac:(discriminate))
    as (msg & Htrue & _).
  exists msg. split; [reflexivity |].
  apply Htrue. simpl. auto.
Defined.

(* ------------------------------------------------------------------------ *)
(** ** More on the retry loop and the confirmation                           *)
(* ------------------------------------------------------------------------ *)

Section RoundFacts.
Variable _do_ask : M result.

Lemma failed_round_step (fuel : nat) (self : PromptBase.t) (w w1 : world) :
  failed_round (PromptBase.confirm self) _do_ask w w1 ->
  PromptBase._attempts self < PromptBase.retries self ->
  PromptBase.ask_loop _do_ask (S fuel) self w
  = PromptBase.ask_loop _do_ask fuel (PromptBase.incr_attempts self) w1.
Proof.
  intros Hround Hlt. cbn [PromptBase.ask_loop].
  destruct (Z.ltb_spec (PromptBase._attempts self) (PromptBase.retries self));
    [| lia].
  unfold bind at 1.
  destruct Hround as [w w1 Hdo | w w1 w2 value Hdo Hval Hconf Hdecl].
  - now rewrite Hdo.
  - rewrite Hdo, Hconf.
    destruct value; [contradiction | |]; unfold bind at 1; now rewrite Hdecl.
Qed.

Lemma good_round_step
      (fuel : nat) (self : PromptBase.t) (w w1 : world) (value : result) :
  good_round (PromptBase.confirm self) _do_ask w value w1 ->
  PromptBase._attempts self < PromptBase.retries self ->
  PromptBase.ask_loop _do_ask (S fuel) self w = Ret (value, self) w1.
Proof.
  intros Hround Hlt. cbn [PromptBase.ask_loop].
  destruct (Z.ltb_spec (PromptBase._attempts self) (PromptBase.retries self));
    [| lia].
  unfold bind at 1.
  destruct Hround
    as [w w1 value Hdo Hval Hconf | w w1 w2 value Hdo Hval Hconf Hascii Hok].
  - rewrite Hdo, Hconf.
    destruct value; [contradiction | reflexivity | reflexivity].
  - rewrite Hdo, Hconf.
    destruct value; [contradiction | |]; unfold bind at 1; now rewrite Hok.
Qed.

Lemma incr_with_attempts (self : PromptBase.t) (n : Z) :
  with_attempts (PromptBase.incr_attempts self) n = with_attempts self n.
Proof. reflexivity. Qed.

Lemma ask_loop_success (n : nat) (w w1 : world) :
  forall (confirm : bool),
  failed_rounds confirm _do_ask n w w1 ->
  forall (fuel : nat) (self : PromptBase.t) (value : result) (w2 : world),
    confirm = PromptBase.confirm self ->
    good_round confirm _do_ask w1 value w2 ->
    PromptBase._attempts self + Z.of_nat n < PromptBase.retries self ->
    (n < fuel)%nat ->
    PromptBase.ask_loop _do_ask fuel self w
    = Ret (value, with_attempts self (PromptBase._attempts self + Z.of_nat n)) w2.
Proof.
  intros confirm Hrounds.
  induction Hrounds as [w | n w w1 w2 Hround Hrounds IH];
    intros fuel self value w3 Hconf Hgood Hlt Hfuel;
    (destruct fuel as [| fuel]; [lia |]); subst confirm.
  - rewrite (good_round_step fuel self w w3 value Hgood) by lia.
    destruct self as [pr re co at_]. unfold with_attempts. simpl.
    now rewrite Z.add_0_r.
  - rewrite (failed_round_step fuel self w w1 Hround) by lia.
    rewrite (IH fuel (PromptBase.incr_attempts self) value w3);
      [| reflexivity | assumption | simpl; lia | lia].
    rewrite incr_with_attempts. simpl. do 3 f_equal. lia.
Qed.

Lemma ask_loop_failed (n : nat) (w w1 : world) :
  forall (confirm : bool),
  failed_rounds confirm _do_ask n w w1 ->
  forall (fuel : nat) (self : PromptBase.t),
    confirm = PromptBase.confirm self ->
    PromptBase.retries self - PromptBase._attempts self = Z.of_nat n ->
    (n < fuel)%nat ->
    PromptBase.ask_loop _do_ask fuel self w
    = Ret (RVal VNone, with_attempts self (PromptBase.retries self))
          (after_events w1 too_many).
Proof.
  intros confirm Hrounds.
  induction Hrounds as [w | n w w1 w2 Hround Hrounds IH];
    intros fuel self Hconf Hn Hfuel;
    (destruct fuel as [| fuel]; [lia |]); subst confirm.
  - cbn [PromptBase.ask_loop].
    destruct (Z.ltb_spec (PromptBase._attempts self) (PromptBase.retries self));
      [lia |].
    rewrite gives_up. destruct self as [pr re co at_]. simpl in *.
    replace at_ with re by lia. reflexivity.
  - rewrite (failed_round_step fuel self w w1 Hround) by lia.
    rewrite (IH fuel (PromptBase.incr_attempts self));
      [reflexivity | reflexivity | simpl; lia | lia].
Qed.

(** What the loop hands back is never the retry sentinel, and the object
    changes in its counter only. *)
Lemma ask_loop_result (fuel : nat) :
  forall (self self' : PromptBase.t) (w w' : world) (value : result),
    PromptBase.ask_loop _do_ask fuel self w = Ret (value, self') w' ->
    value <> RRetry
    /\ self' = with_attempts self (PromptBase._attempts self')
    /\ PromptBase._attempts self <= PromptBase._attempts self'
    /\ PromptBase._attempts self'
       <= Z.max (PromptBase._attempts self) (PromptBase.retries self).
Proof.
  induction fuel as [| fuel IH]; intros self self' w w' value;
    cbn [PromptBase.ask_loop]; [discriminate |].
  assert (Hnext : forall w1,
             PromptBase._attempts self < PromptBase.retries self ->
             PromptBase.ask_loop _do_ask fuel (PromptBase.incr_attempts self) w1
             = Ret (value, self') w' ->
             value <> RRetry
             /\ self' = with_attempts self (PromptBase._attempts self')
             /\ PromptBase._attempts self <= PromptBase._attempts self'
             /\ PromptBase._attempts self'
                <= Z.max (PromptBase._attempts self) (PromptBase.retries self)).
  { intros w1 Hlt H. apply IH in H. destruct H as (Hv & Hs & Hlo & Hhi).
    rewrite incr_with_attempts in Hs. simpl in Hlo, Hhi.
    repeat split; [assumption | assumption | lia | lia]. }
  assert (Hsame : forall v,
             v <> RRetry ->
             v <> RRetry
             /\ self = with_attempts self (PromptBase._attempts self)
             /\ PromptBase._attempts self <= PromptBase._attempts self
             /\ PromptBase._attempts self
                <= Z.max (PromptBase._attempts self) (PromptBase.retries self)).
  { intros v Hv. destruct self as [pr re co at_]. simpl.
    repeat split; [assumption | lia | lia]. }
  destruct (Z.ltb_spec (PromptBase._attempts self) (PromptBase.retries self))
    as [Hlt | Hge].
  - unfold bind at 1.
    destruct (_do_ask w) as [v w1 | e w1 |]; [| discriminate | discriminate].
    destruct v as [| v | l]; [apply Hnext; assumption | |].
    all: destruct (PromptBase.confirm self);
      [| unfold ret; intros [= <- <- <-]; apply Hsame; discriminate].
    all: unfold bind at 1.
    all: match goal with
         | |- context [PromptBase._confirm ?x ?y] =>
             destruct (PromptBase._confirm x y) as [ok w2 | e2 w2 |]
         end; [| discriminate | discriminate].
    all: destruct ok; cbn [negb];
      [unfold ret; intros [= <- <- <-]; apply Hsame; discriminate
      | apply Hnext; assumption].
  - rewrite gives_up. intros [= <- <- <-]. apply Hsame. discriminate.
Qed.

End RoundFacts.

(** X1: whatever the validation step is, a value returned by [ask] is never
    the retry sentinel; the prompt object comes back with its counter
    changed only, not lowered and not beyond the larger of its old value
    and [retries]. *)
Theorem ask_result_invariants
        (_do_ask : M result) (self self' : PromptBase.t) (w w' : world)
        (value : result) :
  PromptBase.ask _do_ask self w = Ret (value, self') w' ->
  value <> RRetry
  /\ PromptBase.prompt self' = PromptBase.prompt self
  /\ PromptBase.retries self' = PromptBase.retries self
  /\ PromptBase.confirm self' = PromptBase.confirm self
  /\ PromptBase._attempts self <= PromptBase._attempts self'
  /\ PromptBase._attempts self'
     <= Z.max (PromptBase._attempts self) (PromptBase.retries self).
Proof.
  unfold PromptBase.ask. intros H.
  apply ask_loop_result in H. destruct H as (Hv & Hs & Hlo & Hhi).
  rewrite Hs. simpl. repeat split; assumption.
Qed.

(** X2: the first valid answer wins.  If [n] turns in a row fail (an
    invalid answer, or a valid one the user declines), the next turn gives
    a valid answer that is confirmed, by an ASCII answer, where
    confirmation is on, and [_attempts + n < retries], then [ask] returns
    that answer and the counter has grown by exactly [n]. *)
Theorem ask_first_success
        (_do_ask : M result) (self : PromptBase.t) (n : nat)
        (w w1 w2 : world) (value : result) :
  failed_rounds (PromptBase.confirm self) _do_ask n w w1 ->
  good_round (PromptBase.confirm self) _do_ask w1 value w2 ->
  PromptBase._attempts self + Z.of_nat n < PromptBase.retries self ->
  PromptBase.ask _do_ask self w
  = Ret (value, with_attempts self (PromptBase._attempts self + Z.of_nat n)) w2.
Proof.
  intros Hfailed Hgood Hlt. unfold PromptBase.ask.
  apply (ask_loop_success _do_ask n w w1 _ Hfailed); auto. lia.
Qed.

(** X3: declined confirmations use up attempts like invalid answers.  If
    each of the [retries - _attempts] turns that are left fails in either
    way, [ask] emits the error notice and returns [None] with the counter
    at [retries]. *)
Theorem ask_gives_up_after_failed_rounds
        (_do_ask : M result) (self : PromptBase.t) (n : nat) (w w1 : world) :
  failed_rounds (PromptBase.confirm self) _do_ask n w w1 ->
  PromptBase.retries self - PromptBase._attempts self = Z.of_nat n ->
  PromptBase.ask _do_ask self w
  = Ret (RVal VNone, with_attempts self (PromptBase.retries self))
        (after_events w1 too_many).
Proof.
  intros Hfailed Hn. unfold PromptBase.ask.
  apply (ask_loop_failed _do_ask n w w1 _ Hfailed); auto. lia.
Qed.

Lemma join_values_strings (ss : list string) :
  forall i, PromptBase.join_values i (map VStr ss) = inr ss.
Proof.
  induction ss as [| s ss IH]; intros i; simpl; [reflexivity |].
  now rewrite IH.
Qed.

Lemma join_values_non_str (l : list value) :
  forall i,
    forallb is_str l = false ->
    exists msg, PromptBase.join_values i l = inl (TypeError msg).
Proof.
  induction l as [| v l IH]; intros i; simpl; [discriminate |].
  destruct v; simpl; eauto.
  intros H. destruct (IH (S i) H) as [msg ->]. simpl. eauto.
Qed.

(** X4: the confirmation shows a scalar through [str] and a list through
    [", ".join]; a selection holding a value that is not a string therefore
    raises [TypeError] before anything is asked.  When it does ask and the
    answer is ASCII, only ["n"] and ["no"] (stripped, in any casing)
    decline. *)
Theorem confirm_needs_strings (l : list value) (v : value) (w : world) :
  (forallb is_str l = false ->
   exists msg, PromptBase._confirm (RList l) w = Raise (TypeError msg) w)
  /\ (ascii_answer w ->
      forall ss, l = map VStr ss ->
                 PromptBase._confirm (RList l) w
                 = Ret (negb (declines (next_answer w)))
                       (after_ask w (confirm_question (PyStr.join ", " ss))))
  /\ (ascii_answer w ->
      PromptBase._confirm (RVal v) w
      = Ret (negb (declines (next_answer w)))
            (after_ask w (confirm_question (py_str v)))).
Proof.
  unfold PromptBase._confirm, PromptBase.display_of, bind, lift, ebind.
  split; [| split].
  - intros H. destruct (join_values_non_str l 0 H) as [msg ->]. now exists msg.
  - intros _ ss ->. now rewrite join_values_strings.
  - intros _. reflexivity.
Qed.

Lemma ask_first_success_witness :
  PromptBase.ask (FreeformPrompt._do_ask 0 (FreeformPrompt.new "Name" false 3 true))
                 (PromptBase.new "Name" 3 true)
                 (script [""; "Ada"; "n"; "Ada"; "y"])
  = Ret (RVal (VStr "Ada"), with_attempts (PromptBase.new "Name" 3 true) (0 + 2))
        (after_ask
           (after_ask
              (after_ask
                 (after_ask
                    (after_ask (script [""; "Ada"; "n"; "Ada"; "y"]) "Name: ")
                    "Name: ")
                 (confirm_question "Ada"))
              "Name: ")
           (confirm_question "Ada")).
Proof.
  refine (ask_first_success _ (PromptBase.new "Name" 3 true) 2 _ _ _ _ _ _ _).
  - eapply failed_rounds_S; [apply failed_invalid; cbv; reflexivity |].
    eapply failed_rounds_S;
      [eapply failed_declined;
       [cbv; reflexivity | discriminate | reflexivity | cbv; reflexivity] |].
    apply failed_rounds_O.
  - eapply good_confirmed;
      [cbv; reflexivity | discriminate | reflexivity | | cbv; reflexivity].
    intros a Ha. cbv in Ha. injection Ha as <-. reflexivity.
  - simpl. lia.
Defined.

Lemma ask_gives_up_after_failed_rounds_witness :
  PromptBase.ask (FreeformPrompt._do_ask 0 (FreeformPrompt.new "Name" false 2 true))
                 (PromptBase.new "Name" 2 true)
                 (script ["Ada"; " No "; ""])
  = Ret (RVal VNone, with_attempts (PromptBase.new "Name" 2 true) 2)
        (after_events
           (after_ask
              (after_ask
                 (after_ask (script ["Ada"; " No "; ""]) "Name: ")
                 (confirm_question "Ada"))
              "Name: ")
           too_many).
Proof.
  refine (ask_gives_up_after_failed_rounds
            _ (PromptBase.new "Name" 2 true) 2 _ _ _ _).
  - eapply failed_rounds_S;
      [eapply failed_declined;
       [cbv; reflexivity | discriminate | reflexivity | cbv; reflexivity] |].
    eapply failed_rounds_S; [apply failed_invalid; cbv; reflexivity |].
    apply failed_rounds_O.
  - reflexivity.
Defined.

Lemma ask_result_invariants_witness :
  RVal (VStr "Ada") <> RRetry
  /\ PromptBase._attempts (with_attempts (PromptBase.new "Name" 3 false) 1) <= 3.
Proof.
  destruct (ask_result_invariants
              (FreeformPrompt._do_ask 0 (FreeformPrompt.new "Name" false 3 false))
              (PromptBase.new "Name" 3 false)
              (with_attempts (PromptBase.new "Name" 3 false) 1)
              (script [""; "Ada"])
              (after_ask (after_ask (script [""; "Ada"]) "Name: ") "Name: ")
              (RVal (VStr "Ada")) ltac:(reflexivity))
    as (Hv & _ & _ & _ & _ & Hhi).
  split; [exact Hv | exact Hhi].
Defined.

Lemma confirm_needs_strings_witness :
  (exists msg,
      PromptBase._confirm (RList [VInt 1; VInt 3]) (script ["y"])
      = Raise (TypeError msg) (script ["y"]))
  /\ PromptBase._confirm (RList [VStr "a"; VStr "b"]) (script [" NO "])
     = Ret false (after_ask (script [" NO "]) (confirm_question "a, b")).
Proof.
  split.
  - apply (proj1 (confirm_needs_strings [VInt 1; VInt 3] VNone (script ["y"]))).
    reflexivity.
  - refine (proj1 (proj2 (confirm_needs_strings [VStr "a"; VStr "b"] VNone
                            (script [" NO "])))
                  _ ["a"; "b"] eq_refl).
    intros a Ha. cbv in Ha. injection Ha as <-. reflexivity.
Defined.

(* ------------------------------------------------------------------------ *)
(** ** The resolution maps                                                   *)
(* ------------------------------------------------------------------------ *)

Section AnyDictFacts.
Context {K V : Type} (eqb : K -> K -> bool).
Implicit Types (d : list (K * V)) (k : K) (v : V).
Local Open Scope list_scope.

Lemma get_in_values k v d : PyDict.get eqb k d = Some v -> In v (PyDict.values d).
Proof.
  induction d as [| [k0 v0] d IH]; simpl; [discriminate |].
  destruct (eqb k k0); [intros [= ->]; now left | intros H; right; now apply IH].
Qed.

Lemma values_set k v d v' :
  In v' (PyDict.values (PyDict.set eqb k v d)) ->
  v' = v \/ In v' (PyDict.values d).
Proof.
  induction d as [| [k0 v0] d IH]; simpl.
  - intros [<- | []]. now left.
  - destruct (eqb k k0); simpl.
    + intros [<- | H]; [now left | right; now right].
    + intros [<- | H]; [right; now left |].
      destruct (IH H) as [-> | Hin]; [now left | right; now right].
Qed.

Lemma get_set_same k v d :
  eqb k k = true -> PyDict.get eqb k (PyDict.set eqb k v d) = Some v.
Proof.
  intros Hrefl. induction d as [| [k0 v0] d IH]; simpl.
  - now rewrite Hrefl.
  - destruct (eqb k k0) eqn:Hk; simpl; now rewrite Hk.
Qed.

Lemma mem_set_other k k' v d :
  PyDict.mem eqb k d = true -> PyDict.mem eqb k (PyDict.set eqb k' v d) = true.
Proof.
  unfold PyDict.mem. induction d as [| [k0 v0] d IH]; simpl; [discriminate |].
  destruct (eqb k' k0); simpl; destruct (eqb k k0); auto.
Qed.

End AnyDictFacts.

Lemma value_eqb_refl (v : value) : value_eqb v v = true.
Proof.
  destruct v as [| b | z | s]; simpl;
    [reflexivity | now destruct b | apply Z.eqb_refl | apply String.eqb_refl].
Qed.

Lemma value_eqb_str (v : value) (s : string) :
  value_eqb v (VStr s) = true -> v = VStr s.
Proof.
  destruct v; simpl; try discriminate.
  intros H. apply String.eqb_eq in H. now subst.
Qed.

Section ValueMapFacts.
Variable cs : bool.
Local Open Scope list_scope.

Lemma add_entry_values (vm : list (value * value)) (kv : string * value) (v' : value) :
  In v' (PyDict.values (OptionPrompt.add_entry cs vm kv)) ->
  v' = snd kv \/ In v' (PyDict.values vm).
Proof.
  destruct kv as [k v]. unfold OptionPrompt.add_entry. simpl.
  destruct (negb _); intros H.
  - apply values_set in H. destruct H as [-> | H]; [now left |].
    now apply values_set in H.
  - now apply values_set in H.
Qed.

Lemma add_entry_mem (vm : list (value * value)) (kv : string * value) (x : value) :
  PyDict.mem value_eqb x vm = true ->
  PyDict.mem value_eqb x (OptionPrompt.add_entry cs vm kv) = true.
Proof.
  destruct kv as [k v]. unfold OptionPrompt.add_entry. intros H.
  destruct (negb _); repeat apply mem_set_other; assumption.
Qed.

Lemma add_entry_new (vm : list (value * value)) (k : string) (v : value) :
  PyDict.mem value_eqb (OptionPrompt.key_norm cs k)
             (OptionPrompt.add_entry cs vm (k, v)) = true
  /\ PyDict.mem value_eqb (OptionPrompt.value_norm cs v)
                (OptionPrompt.add_entry cs vm (k, v)) = true.
Proof.
  unfold OptionPrompt.add_entry.
  assert (Hk : forall d, PyDict.mem value_eqb (OptionPrompt.key_norm cs k)
                           (PyDict.set value_eqb (OptionPrompt.key_norm cs k) v d)
                         = true).
  { intros d. unfold PyDict.mem.
    now rewrite get_set_same by apply value_eqb_refl. }
  destruct (value_eqb (OptionPrompt.value_norm cs v) (OptionPrompt.key_norm cs k))
    eqn:Heq; simpl.
  - split; [apply Hk |].
    unfold OptionPrompt.key_norm in Heq. apply value_eqb_str in Heq.
    rewrite Heq. apply Hk.
  - split; [apply mem_set_other, Hk |].
    unfold PyDict.mem. now rewrite get_set_same by apply value_eqb_refl.
Qed.

Lemma fold_add_entry_values (od : list (string * value)) :
  forall (vm : list (value * value)) (v' : value),
    In v' (PyDict.values (fold_left (OptionPrompt.add_entry cs) od vm)) ->
    In v' (PyDict.values od) \/ In v' (PyDict.values vm).
Proof.
  induction od as [| kv od IH]; intros vm v'; simpl; [now right |].
  intros H. destruct (IH _ _ H) as [Hin | Hin]; [left; now right |].
  apply add_entry_values in Hin. destruct Hin as [-> | Hin];
    [left; now left | now right].
Qed.

Lemma fold_add_entry_mem (od : list (string * value)) :
  forall (vm : list (value * value)) (x : value),
    PyDict.mem value_eqb x vm = true ->
    PyDict.mem value_eqb x (fold_left (OptionPrompt.add_entry cs) od vm) = true.
Proof.
  induction od as [| kv od IH]; intros vm x H; simpl; [assumption |].
  apply IH. now apply add_entry_mem.
Qed.

(** Every value of the value map is a value of the catalog. *)
Lemma value_map_values (od : list (string * value)) (v : value) :
  In v (PyDict.values (OptionPrompt.build_value_map cs od)) ->
  In v (PyDict.values od).
Proof.
  intros H. apply fold_add_entry_values in H. destruct H as [H | []]. exact H.
Qed.

(** Every key of the catalog and every value text is a key of the value
    map, once normalised. *)
Lemma value_map_covers (od : list (string * value)) (k : string) (v : value) :
  In (k, v) od ->
  PyDict.mem value_eqb (OptionPrompt.key_norm cs k)
             (OptionPrompt.build_value_map cs od) = true
  /\ PyDict.mem value_eqb (OptionPrompt.value_norm cs v)
                (OptionPrompt.build_value_map cs od) = true.
Proof.
  unfold OptionPrompt.build_value_map. generalize (@nil (value * value)) as vm.
  induction od as [| kv od IH]; intros vm; simpl; [intros [] |].
  intros [-> | Hin]; [| now apply IH].
  destruct (add_entry_new vm k v) as [Hk Hv].
  split; now apply fold_add_entry_mem.
Qed.

End ValueMapFacts.

(** Every value of the index map is a value of the catalog. *)
Lemma index_map_values (od im : list (string * value)) (v : value) :
  NoDup (PyDict.keys od) ->
  OptionPrompt.build_index_map od (PyDict.keys od) = inr im ->
  In v (PyDict.values im) -> In v (PyDict.values od).
Proof.
  intros Hnd Him Hin.
  destruct (build_index_map_spec od Hnd) as (im' & Him' & Hkeys & Hnth).
  rewrite Him in Him'. injection Him' as <-.
  unfold PyDict.values in Hin. apply in_map_iff in Hin.
  destruct Hin as ([s v'] & Hv & Hin). simpl in Hv. subst v'.
  apply In_nth_error in Hin. destruct Hin as [i Hi].
  assert (Hlen : List.length im = List.length od).
  { apply (f_equal (@List.length _)) in Hkeys. unfold PyDict.keys in Hkeys.
    now rewrite !length_map, length_seq in Hkeys. }
  assert (Hlt : (i < List.length od)%nat).
  { rewrite <- Hlen. apply nth_error_Some. congruence. }
  destruct (nth_error od i) as [[k0 v0] |] eqn:Hod;
    [| apply nth_error_None in Hod; lia].
  specialize (Hnth i k0 v0 Hod). rewrite Hi in Hnth. injection Hnth as _ ->.
  apply nth_error_In in Hod. now apply (in_map snd) in Hod.
Qed.

(* ------------------------------------------------------------------------ *)
(** ** Text facts used by the parser                                         *)
(* ------------------------------------------------------------------------ *)

Section TextFacts.

Lemma lower_char_idem (c : ascii) :
  PyStr.lower_char (PyStr.lower_char c) = PyStr.lower_char c.
Proof.
  destruct c as [[] [] [] [] [] [] [] []]; vm_compute; reflexivity.
Qed.

Lemma lower_idem (s : string) : PyStr.lower (PyStr.lower s) = PyStr.lower s.
Proof.
  induction s as [| c s IH]; simpl; [reflexivity |].
  now rewrite lower_char_idem, IH.
Qed.

Lemma lower_empty (s : string) : PyStr.lower s = "" -> s = "".
Proof. destruct s; [reflexivity | discriminate]. Qed.

Lemma digit_plain (c : ascii) :
  is_digit c = true ->
  PyStr.is_upper c = false /\ PyStr.is_space c = false /\ Ascii.eqb c "," = false.
Proof.
  destruct c as [[] [] [] [] [] [] [] []]; vm_compute; intros H;
    (discriminate H || (repeat split)).
Qed.

Lemma digits_string_of_uint (d : uint) :
  all_chars is_digit (NilEmpty.string_of_uint d) = true.
Proof. induction d; simpl; auto. Qed.

Lemma digits_of_nat (n : nat) : all_chars is_digit (PyStr.of_nat n) = true.
Proof.
  unfold PyStr.of_nat, NilZero.string_of_uint.
  destruct (Nat.to_uint n); try reflexivity; apply digits_string_of_uint.
Qed.

Lemma of_nat_nonempty (n : nat) : PyStr.truthy (PyStr.of_nat n) = true.
Proof.
  unfold PyStr.of_nat, NilZero.string_of_uint.
  destruct (Nat.to_uint n); reflexivity.
Qed.

Lemma digits_lower (s : string) :
  all_chars is_digit s = true -> PyStr.lower s = s.
Proof.
  induction s as [| c s IH]; simpl; [reflexivity |].
  intros H. apply andb_prop in H. destruct H as [Hc Hs].
  destruct (digit_plain c Hc) as (Hu & _ & _).
  unfold PyStr.lower_char. now rewrite Hu, IH.
Qed.

Lemma digits_lstrip (s : string) :
  all_chars is_digit s = true -> PyStr.lstrip s = s.
Proof.
  destruct s as [| c s]; simpl; [reflexivity |].
  intros H. apply andb_prop in H. destruct H as [Hc _].
  destruct (digit_plain c Hc) as (_ & Hsp & _). now rewrite Hsp.
Qed.

Lemma digits_rstrip (s : string) :
  all_chars is_digit s = true -> PyStr.rstrip s = s.
Proof.
  induction s as [| c s IH]; simpl; [reflexivity |].
  intros H. apply andb_prop in H. destruct H as [Hc Hs].
  destruct (digit_plain c Hc) as (_ & Hsp & _).
  rewrite (IH Hs), Hsp. now destruct s.
Qed.

Lemma digits_split (s : string) :
  all_chars is_digit s = true -> PyStr.split "," s = [s].
Proof.
  induction s as [| c s IH]; simpl; [reflexivity |].
  intros H. apply andb_prop in H. destruct H as [Hc Hs].
  destruct (digit_plain c Hc) as (_ & _ & Hco).
  now rewrite Hco, (IH Hs).
Qed.

(** A number written in decimal is one token, the same in any case rule. *)
Lemma tokens_of_number (cs : bool) (n : nat) :
  fold_case cs (PyStr.of_nat n) = PyStr.of_nat n
  /\ OptionPrompt.tokens_of (PyStr.of_nat n) = [PyStr.of_nat n].
Proof.
  pose proof (digits_of_nat n) as Hd. split.
  - unfold fold_case. destruct cs; [reflexivity | now apply digits_lower].
  - unfold OptionPrompt.tokens_of, PyStr.strip.
    rewrite (digits_split _ Hd). simpl.
    now rewrite (digits_lstrip _ Hd), (digits_rstrip _ Hd), of_nat_nonempty.
Qed.

End TextFacts.

(* ------------------------------------------------------------------------ *)
(** ** What parsing can return                                               *)
(* ------------------------------------------------------------------------ *)

Section ParseFacts.
Variable p : OptionPrompt.t.
Local Open Scope list_scope.

(** With custom values allowed nothing is ever unknown. *)
Lemma scan_tokens_custom (tokens : list string) :
  OptionPrompt.allow_custom p = true ->
  forall selected unknown,
    snd (OptionPrompt.scan_tokens p tokens selected unknown) = unknown.
Proof.
  intros Hc. induction tokens as [| t tokens IH]; intros selected unknown;
    cbn [OptionPrompt.scan_tokens]; [reflexivity |].
  destruct (PyDict.get String.eqb t _); [apply IH |].
  destruct (PyDict.get value_eqb (VStr t) _); [apply IH |].
  destruct (PyStr.mem t ["all"; "none"]); [reflexivity |].
  rewrite Hc. apply IH.
Qed.

(** Without custom values every selected value comes from the maps or from
    the catalog. *)
Lemma scan_tokens_values (cat : list value) (tokens : list string) :
  OptionPrompt.allow_custom p = false ->
  (forall v, In v (PyDict.values (OptionPrompt._index_map p)) -> In v cat) ->
  (forall v, In v (PyDict.values (OptionPrompt._value_map p)) -> In v cat) ->
  (forall v, In v (PyDict.values (OptionPrompt._option_dict p)) -> In v cat) ->
  forall selected unknown,
    (forall v, In v selected -> In v cat) ->
    forall v, In v (fst (OptionPrompt.scan_tokens p tokens selected unknown)) ->
              In v cat.
Proof.
  intros Hc Him Hvm Hod.
  induction tokens as [| t tokens IH]; intros selected unknown Hsel;
    cbn [OptionPrompt.scan_tokens]; [exact Hsel |].
  assert (Hpush : forall x, In x cat ->
                            forall v, In v (selected ++ [x]) -> In v cat).
  { intros x Hx v Hv. apply in_app_or in Hv.
    destruct Hv as [Hv | [<- | []]]; auto. }
  destruct (PyDict.get String.eqb t _) as [x |] eqn:Hi.
  { apply IH, Hpush, Him. now apply (get_in_values _ _ _ _ Hi). }
  destruct (PyDict.get value_eqb (VStr t) _) as [x |] eqn:Hv.
  { apply IH, Hpush, Hvm. now apply (get_in_values _ _ _ _ Hv). }
  destruct (PyStr.mem t ["all"; "none"]).
  { simpl. destruct (String.eqb t "all"); [exact Hod | intros v []]. }
  rewrite Hc. now apply IH.
Qed.

End ParseFacts.

(** The maps of a constructed prompt hold catalog values only. *)
Lemma constructed_maps_closed (a : OptionPrompt.args) (p : OptionPrompt.t) :
  OptionPrompt.new a = inr p ->
  (forall v, In v (PyDict.values (OptionPrompt._index_map p)) ->
             In v (PyDict.values (OptionPrompt._option_dict p)))
  /\ (forall v, In v (PyDict.values (OptionPrompt._value_map p)) ->
                In v (PyDict.values (OptionPrompt._option_dict p))).
Proof.
  intros Hnew. destruct (new_inv a p Hnew) as (od & im & Hod & Him & ->).
  simpl. split.
  - intros v. apply (index_map_values od im v (normalise_nodup _ _ Hod) Him).
  - intros v. apply value_map_values.
Qed.

(** X5: no map entry points outside the catalog.  When custom values are
    not allowed, whatever [_parse_input] accepts is a value of the catalog:
    the single value of a single-select, every member of a multi-select. *)
Theorem parse_only_catalog_values
        (a : OptionPrompt.args) (p : OptionPrompt.t) (raw : string)
        (w w' : world) (r : result) :
  OptionPrompt.new a = inr p ->
  OptionPrompt.allow_custom p = false ->
  OptionPrompt._parse_input p raw w = Ret r w' ->
  match r with
  | RRetry => True
  | RVal v => In v (PyDict.values (OptionPrompt._option_dict p))
  | RList l => forall v, In v l -> In v (PyDict.values (OptionPrompt._option_dict p))
  end.
Proof.
  intros Hnew Hc. destruct (constructed_maps_closed a p Hnew) as [Him Hvm].
  unfold OptionPrompt._parse_input.
  set (norm := if OptionPrompt.case_sensitive p then raw else PyStr.lower raw).
  destruct (OptionPrompt.multi p).
  - pose proof (scan_tokens_values p _ (OptionPrompt.tokens_of norm)
                  Hc Him Hvm (fun v H => H) [] [] (fun v (H : In v []) => match H with end))
      as Hscan.
    destruct (OptionPrompt.scan_tokens p _ [] []) as [selected unknown].
    destruct unknown; unfold bind, plim.warn, ret; simpl.
    + intros [= <- _]. exact Hscan.
    + intros [= <- _]. exact I.
  - destruct (PyDict.get String.eqb norm _) as [x |] eqn:Hi.
    { unfold ret. intros [= <- _]. apply Him. now apply (get_in_values _ _ _ _ Hi). }
    destruct (PyDict.get value_eqb (VStr norm) _) as [x |] eqn:Hv.
    { unfold ret. intros [= <- _]. apply Hvm. now apply (get_in_values _ _ _ _ Hv). }
    rewrite Hc. unfold bind, plim.warn, ret. simpl. intros [= <- _]. exact I.
Qed.

(** X6: with custom values allowed no input is rejected: [_parse_input]
    returns a value or a list, never the retry sentinel, and emits no
    warning. *)
Theorem custom_never_rejected (p : OptionPrompt.t) (raw : string) (w : world) :
  OptionPrompt.allow_custom p = true ->
  exists r, OptionPrompt._parse_input p raw w = Ret r w /\ r <> RRetry.
Proof.
  intros Hc. unfold OptionPrompt._parse_input.
  set (norm := if OptionPrompt.case_sensitive p then raw else PyStr.lower raw).
  destruct (OptionPrompt.multi p).
  - pose proof (scan_tokens_custom p (OptionPrompt.tokens_of norm) Hc [] [])
      as Hscan.
    destruct (OptionPrompt.scan_tokens p _ [] []) as [selected unknown].
    simpl in Hscan. subst unknown. eexists. split; [reflexivity | discriminate].
  - destruct (PyDict.get String.eqb norm _);
      [eexists; split; [reflexivity | discriminate] |].
    destruct (PyDict.get value_eqb (VStr norm) _);
      [eexists; split; [reflexivity | discriminate] |].
    rewrite Hc. eexists. split; [reflexivity | discriminate].
Qed.

Lemma mem_get (x : value) (vm : list (value * value)) :
  PyDict.mem value_eqb x vm = true ->
  exists v, PyDict.get value_eqb x vm = Some v.
Proof.
  unfold PyDict.mem. destruct (PyDict.get value_eqb x vm) as [v |];
    [eauto | discriminate].
Qed.

(** Single-select parsing of a text whose normal form is a key of the value
    map: it is accepted, by the index map or by the value map. *)
Lemma single_accepts (a : OptionPrompt.args) (p : OptionPrompt.t)
      (raw : string) (w : world) :
  OptionPrompt.new a = inr p ->
  OptionPrompt.multi p = false ->
  PyDict.mem value_eqb
             (VStr (fold_case (OptionPrompt.case_sensitive p) raw))
             (OptionPrompt._value_map p) = true ->
  exists v,
    OptionPrompt._parse_input p raw w = Ret (RVal v) w
    /\ In v (PyDict.values (OptionPrompt._option_dict p)).
Proof.
  intros Hnew Hm Hmem. destruct (constructed_maps_closed a p Hnew) as [Him Hvm].
  apply mem_get in Hmem. destruct Hmem as [v Hv].
  unfold OptionPrompt._parse_input. rewrite Hm. unfold fold_case in Hv.
  destruct (PyDict.get String.eqb _ (OptionPrompt._index_map p)) as [x |] eqn:Hi.
  - exists x. split; [reflexivity |].
    apply Him. now apply (get_in_values _ _ _ _ Hi).
  - rewrite Hv. exists v. split; [reflexivity |].
    apply Hvm. now apply (get_in_values _ _ _ _ Hv).
Qed.

(** X8: the number the menu shows selects the key it is shown with.  For
    the catalog entry at position [i] (from zero), typing [str(i + 1)]
    gives its value in single-select mode and the one-element list of its
    value in multi-select mode, whatever the case rule and the custom
    setting. *)
Theorem menu_number_selects
        (a : OptionPrompt.args) (p : OptionPrompt.t)
        (i : nat) (k : string) (v : value) (w : world) :
  OptionPrompt.new a = inr p ->
  nth_error (OptionPrompt._option_dict p) i = Some (k, v) ->
  OptionPrompt._parse_input p (PyStr.of_nat (S i)) w
  = Ret (if OptionPrompt.multi p then RList [v] else RVal v) w.
Proof.
  intros Hnew Hnth.
  assert (Hget : PyDict.get String.eqb (PyStr.of_nat (S i))
                            (OptionPrompt._index_map p) = Some v).
  { destruct (new_inv a p Hnew) as (od & im & Hod & Him & Hp).
    rewrite Hp in Hnth |- *. simpl in *.
    apply normalise_nodup in Hod.
    destruct (build_index_map_spec od Hod) as (im' & Him' & Hkeys & Hspec).
    rewrite Him in Him'. injection Him' as <-.
    eapply get_nth; [| eapply Hspec; eassumption].
    rewrite Hkeys. apply of_nat_seq_nodup. }
  destruct (tokens_of_number (OptionPrompt.case_sensitive p) (S i)) as [Hfold Htok].
  unfold OptionPrompt._parse_input. unfold fold_case in Hfold. rewrite Hfold.
  destruct (OptionPrompt.multi p).
  - rewrite Htok. cbn [OptionPrompt.scan_tokens]. now rewrite Hget.
  - now rewrite Hget.
Qed.

(** X9: unless the prompt is case sensitive, the casing of an ASCII input
    does not matter: parsing the input and parsing its lower-case form give
    the same outcome, in multi-select mode and, when custom values are not
    allowed, in single-select mode. *)
Theorem parse_ignores_case (p : OptionPrompt.t) (raw : string) (w : world) :
  OptionPrompt.case_sensitive p = false ->
  is_ascii raw = true ->
  OptionPrompt.multi p = true \/ OptionPrompt.allow_custom p = false ->
  OptionPrompt._parse_input p (PyStr.lower raw) w
  = OptionPrompt._parse_input p raw w.
Proof.
  intros Hcs _ Hmode. unfold OptionPrompt._parse_input.
  rewrite Hcs, lower_idem.
  destruct (OptionPrompt.multi p); [reflexivity |].
  destruct Hmode as [Hm | Hc]; [discriminate |]. now rewrite Hc.
Qed.

(* ------------------------------------------------------------------------ *)
(** ** Defaults and empty input                                              *)
(* ------------------------------------------------------------------------ *)

Section DefaultFacts.
Variable cs : bool.
Variable od : list (string * value).
Local Open Scope list_scope.

Lemma match_text_some (cmp : string) (items : list (string * value)) (k : string) :
  OptionPrompt.match_text cs cmp items = Some k ->
  exists v, In (k, v) items /\ entry_matches cs cmp (k, v) = true.
Proof.
  induction items as [| [k0 v0] items IH]; simpl; [discriminate |].
  destruct (_ || _) eqn:Hm.
  - intros [= <-]. exists v0. split; [now left | exact Hm].
  - intros H. destruct (IH H) as (v & Hin & Hv). exists v. split; [now right | exact Hv].
Qed.

Lemma match_text_found (cmp : string) (items : list (string * value)) :
  (exists kv, In kv items /\ entry_matches cs cmp kv = true) ->
  exists k, OptionPrompt.match_text cs cmp items = Some k.
Proof.
  induction items as [| [k0 v0] items IH]; simpl.
  - intros (kv & [] & _).
  - intros (kv & [<- | Hin] & Hm).
    + unfold entry_matches in Hm. simpl in Hm. rewrite Hm. eauto.
    + destruct (_ || _); [eauto |]. apply IH. eauto.
Qed.

Lemma match_default_in (val : value) (k : string) :
  OptionPrompt.match_default cs od (PyDict.keys od) val = Some k ->
  In k (PyDict.keys od).
Proof.
  assert (Htext : forall s, OptionPrompt.match_text cs s od = Some k ->
                            In k (PyDict.keys od)).
  { intros s H. destruct (match_text_some _ _ _ H) as (v & Hin & _).
    now apply (in_map fst) in Hin. }
  assert (Hidx : forall z,
             (if (0 <=? z) && (z <? Z.of_nat (List.length (PyDict.keys od)))
              then nth_error (PyDict.keys od) (Z.to_nat z)
              else None) = Some k ->
             In k (PyDict.keys od)).
  { intros z. destruct (_ && _); [apply nth_error_In | discriminate]. }
  unfold OptionPrompt.match_default.
  destruct val as [| b | z | s];
    [discriminate | apply Hidx | apply Hidx | apply Htext].
Qed.

(** Every resolved default key is a key of the catalog. *)
Lemma resolve_default_in (default : py_default) (k : string) :
  In k (OptionPrompt._resolve_default_keys cs od (PyDict.keys od) default) ->
  In k (PyDict.keys od).
Proof.
  assert (Hkeep : forall val, In k (OptionPrompt.keep_truthy
                                      (OptionPrompt.match_default
                                         cs od (PyDict.keys od) val)) ->
                              In k (PyDict.keys od)).
  { intros val. unfold OptionPrompt.keep_truthy.
    destruct (OptionPrompt.match_default _ _ _ val) as [k' |] eqn:Hm;
      [| intros []].
    destruct (PyStr.truthy k'); [| intros []].
    intros [<- | []]. now apply (match_default_in val). }
  destruct default as [v | l]; simpl; [apply Hkeep |].
  intros H. apply in_flat_map in H. destruct H as (val & _ & H).
  now apply (Hkeep val).
Qed.

Lemma getitems_keys (ks : list string) :
  (forall k, In k ks -> In k (PyDict.keys od)) ->
  exists vs,
    OptionPrompt.getitems od ks = inr vs
    /\ List.length vs = List.length ks
    /\ forall v, In v vs -> In v (PyDict.values od).
Proof.
  induction ks as [| k ks IH]; intros Hks; simpl.
  - exists []. repeat split. intros v [].
  - destruct (get_of_key k od) as [v Hv]; [apply Hks; now left |].
    destruct IH as (vs & Hvs & Hlen & Hin); [intros k' H; apply Hks; now right |].
    exists (v :: vs). rewrite (getitem_get _ _ _ Hv). simpl. rewrite Hvs. simpl.
    repeat split; [now rewrite Hlen |].
    intros v' [<- | H]; [| now apply Hin].
    now apply (get_in_values _ _ _ _ Hv).
Qed.

End DefaultFacts.

(** X10: for a constructed prompt every default key is a key of the
    catalog, so empty input never meets a missing key.  The only way
    [_handle_empty] fails is the [IndexError] of a single-select prompt
    whose default was given but resolved to nothing; otherwise the
    single-select branch returns the catalog value of the first default key
    and the multi-select branch one catalog value per default key. *)
Theorem empty_input_outcomes (a : OptionPrompt.args) (p : OptionPrompt.t) :
  OptionPrompt.new a = inr p ->
  (forall k, In k (OptionPrompt._default_keys p) ->
             In k (OptionPrompt._display_keys p))
  /\ (forall e, OptionPrompt._handle_empty p = inl e ->
                e = IndexError "list index out of range"
                /\ OptionPrompt.multi p = false
                /\ OptionPrompt.is_none (OptionPrompt.default p) = false
                /\ OptionPrompt._default_keys p = [])
  /\ (OptionPrompt.multi p = false ->
      forall k ks, OptionPrompt._default_keys p = k :: ks ->
                   exists v, PyDict.get String.eqb k (OptionPrompt._option_dict p)
                             = Some v
                             /\ OptionPrompt._handle_empty p = inr (RVal v))
  /\ (OptionPrompt.multi p = true ->
      exists vs,
        OptionPrompt._handle_empty p = inr (RList vs)
        /\ List.length vs = List.length (OptionPrompt._default_keys p)
        /\ forall v, In v vs ->
                     In v (PyDict.values (OptionPrompt._option_dict p))).
Proof.
  intros Hnew. destruct (new_inv a p Hnew) as (od & im & _ & _ & Hp).
  assert (Hkeys : forall k, In k (OptionPrompt._default_keys p) ->
                            In k (PyDict.keys (OptionPrompt._option_dict p))).
  { rewrite Hp. simpl. intros k. apply resolve_default_in. }
  assert (Hdk : OptionPrompt._display_keys p
                = PyDict.keys (OptionPrompt._option_dict p))
    by (rewrite Hp; reflexivity).
  assert (Hnone : OptionPrompt.is_none (OptionPrompt.default p) = true ->
                  OptionPrompt._default_keys p = []).
  { rewrite Hp. simpl. destruct (OptionPrompt.a_default a) as [[] |]; simpl;
      try discriminate. reflexivity. }
  clear Hp Hnew. split; [now rewrite Hdk |].
  destruct (getitems_keys (OptionPrompt._option_dict p)
                          (OptionPrompt._default_keys p) Hkeys)
    as (vs & Hvs & Hlen & Hin).
  unfold OptionPrompt._handle_empty.
  destruct (OptionPrompt.is_none (OptionPrompt.default p)) eqn:Hn.
  - specialize (Hnone eq_refl). split; [| split].
    + intros e H. discriminate H.
    + intros _ k ks Hd. rewrite Hnone in Hd. discriminate Hd.
    + intros ->. exists []. rewrite Hnone. simpl.
      split; [reflexivity | split; [reflexivity | intros v []]].
  - destruct (OptionPrompt.multi p); cbn [negb].
    + rewrite Hvs. unfold ebind. split; [| split].
      * intros e H. discriminate H.
      * intros H. discriminate H.
      * intros _. exists vs. split; [reflexivity | split; assumption].
    + destruct (OptionPrompt._default_keys p) as [| k ks] eqn:Hd.
      * split; [| split].
        -- intros e [= <-]. repeat split.
        -- intros _ k ks H. discriminate H.
        -- intros H. discriminate H.
      * destruct (get_of_key k (OptionPrompt._option_dict p)) as [v Hv];
          [apply Hkeys; now left |].
        rewrite (getitem_get _ _ _ Hv). unfold ebind. split; [| split].
        -- intros e H. discriminate H.
        -- intros _ k' ks' [= <- <-]. exists v. split; [assumption | reflexivity].
        -- intros H. discriminate H.
Qed.

Section ListCatalogFacts.
Local Open Scope list_scope.

Lemma in_set (k : string) (v : value) (d : list (string * value))
      (e : string * value) :
  In e (PyDict.set String.eqb k v d) -> e = (k, v) \/ In e d.
Proof.
  induction d as [| [k0 v0] d IH]; simpl.
  - intros [<- | []]. now left.
  - destruct (String.eqb_spec k k0) as [-> | _]; simpl.
    + intros [<- | H]; [now left | right; now right].
    + intros [<- | H]; [right; now left |].
      destruct (IH H) as [-> | Hin]; [now left | right; now right].
Qed.

Lemma fold_set_all (P : string * value -> Prop) (items : list (string * value)) :
  forall d,
    (forall e, In e items -> P e) ->
    (forall e, In e d -> P e) ->
    forall e,
      In e (fold_left (fun d kv => PyDict.set String.eqb (fst kv) (snd kv) d)
                      items d) ->
      P e.
Proof.
  induction items as [| [k v] items IH]; intros d Hitems Hd e; simpl; [apply Hd |].
  apply IH; [intros e' H; apply Hitems; now right |].
  intros e' H. apply in_set in H. destruct H as [-> | H];
    [apply Hitems; now left | now apply Hd].
Qed.

Lemma fold_set_keys (items : list (string * value)) (k : string) :
  forall d,
    In k (PyDict.keys d) \/ In k (map fst items) ->
    In k (PyDict.keys
            (fold_left (fun d kv => PyDict.set String.eqb (fst kv) (snd kv) d)
                       items d)).
Proof.
  induction items as [| [k0 v0] items IH]; intros d; simpl.
  - intros [H | []]. exact H.
  - intros H. apply IH. rewrite keys_set. unfold PyDict.mem.
    destruct (PyDict.get String.eqb k0 d) eqn:Hg.
    + destruct H as [H | [<- | H]]; [now left | left | now right].
      destruct (PyDict.get String.eqb k0 d) eqn:Hg'; [| discriminate].
      apply get_Some_in in Hg'. now apply (in_map fst) in Hg'.
    + destruct H as [H | [<- | H]]; [left | left | now right];
        apply in_or_app; [now left | right; now left].
Qed.

Lemma in_get (k : string) (v : value) (d : list (string * value)) :
  NoDup (PyDict.keys d) -> In (k, v) d -> PyDict.get String.eqb k d = Some v.
Proof.
  intros Hnd Hin. apply In_nth_error in Hin. destruct Hin as [i Hi].
  now apply (get_nth k v d i).
Qed.

(** The catalog built from a list of strings: each option is its own
    value, and every option of the list is a key. *)
Lemma list_catalog (l : list string) :
  let od := PyDict.of_items String.eqb (map (fun opt => (opt, VStr opt)) l) in
  (forall k v, In (k, v) od -> v = VStr k /\ In k l)
  /\ (forall k, In k l -> In (k, VStr k) od).
Proof.
  intros od.
  assert (Hall : forall k v, In (k, v) od -> v = VStr k /\ In k l).
  { intros k v H.
    apply (fold_set_all (fun e => snd e = VStr (fst e) /\ In (fst e) l)
                        _ [] ) in H; [exact H | | intros e []].
    intros e He. apply in_map_iff in He. destruct He as (o & <- & Ho).
    now split. }
  split; [exact Hall |].
  intros k Hk.
  assert (Hkey : In k (PyDict.keys od)).
  { apply fold_set_keys. right. rewrite map_map. simpl. now rewrite map_id. }
  unfold PyDict.keys in Hkey. apply in_map_iff in Hkey.
  destruct Hkey as ([k' v] & Hfst & Hin). simpl in Hfst. subst k'.
  destruct (Hall k v Hin) as [-> _]. exact Hin.
Qed.

End ListCatalogFacts.

Lemma fold_case_empty (cs : bool) (s : string) : fold_case cs s = "" -> s = "".
Proof. destruct cs; simpl; [auto | apply lower_empty]. Qed.

Lemma entry_matches_self (cs : bool) (cmp k : string) :
  entry_matches cs cmp (k, VStr k) = String.eqb cmp (fold_case cs k).
Proof.
  unfold entry_matches, OptionPrompt.key_norm, OptionPrompt.value_norm, fold_case.
  destruct cs; simpl; apply orb_diag.
Qed.

Lemma find_app_first (A : Type) (f : A -> bool) (l1 l2 : list A) :
  find f (l1 ++ l2)%list
  = match find f l1 with
    | Some x => Some x
    | None => find f l2
    end.
Proof.
  induction l1 as [| x l1 IH]; simpl; [reflexivity |].
  destruct (f x); [reflexivity | exact IH].
Qed.

(** The keys of a catalog built from a list come in the order of their
    first occurrence, so that the first key with a property is the first
    option with it. *)
Lemma find_keys_fold (f : string -> bool) (l : list string) :
  forall acc : list (string * value),
    find f (PyDict.keys
              (fold_left (fun d kv => PyDict.set String.eqb (fst kv) (snd kv) d)
                         (map (fun opt => (opt, VStr opt)) l) acc))
    = match find f (PyDict.keys acc) with
      | Some k => Some k
      | None => find f l
      end.
Proof.
  induction l as [| x l IH]; intros acc; simpl.
  - now destruct (find f (PyDict.keys acc)).
  - rewrite IH, keys_set. unfold PyDict.mem.
    destruct (PyDict.get String.eqb x acc) as [v |] eqn:Hg.
    + destruct (find f (PyDict.keys acc)) eqn:Hf; [reflexivity |].
      apply get_Some_in in Hg. apply (in_map fst) in Hg. simpl in Hg.
      now rewrite (find_none _ _ Hf x Hg).
    + rewrite find_app_first.
      destruct (find f (PyDict.keys acc)); [reflexivity |].
      simpl. now destruct (f x).
Qed.

Lemma find_keys_of_list (f : string -> bool) (l : list string) :
  find f (PyDict.keys
            (PyDict.of_items String.eqb (map (fun opt => (opt, VStr opt)) l)))
  = find f l.
Proof. unfold PyDict.of_items. now rewrite find_keys_fold. Qed.

Lemma match_text_find (cs : bool) (cmp : string) (od : list (string * value)) :
  (forall k v, In (k, v) od -> v = VStr k) ->
  OptionPrompt.match_text cs cmp od
  = find (fun k => String.eqb cmp (fold_case cs k)) (PyDict.keys od).
Proof.
  unfold PyDict.keys.
  induction od as [| [k0 v0] od IH]; intros Hall;
    cbn [OptionPrompt.match_text map fst find]; [reflexivity |].
  rewrite (Hall k0 v0 (or_introl eq_refl)).
  change (value_eqb (VStr cmp) (OptionPrompt.key_norm cs k0)
          || value_eqb (VStr cmp) (OptionPrompt.value_norm cs (VStr k0)))
    with (entry_matches cs cmp (k0, VStr k0)).
  rewrite entry_matches_self.
  destruct (String.eqb cmp (fold_case cs k0)); [reflexivity |].
  apply IH. intros k v H. apply Hall. now right.
Qed.

(** Over a catalog given as a list of strings, a default that is one of the
    options resolves to the first option that equals it under the case
    rule. *)
Lemma list_default_key
      (a : OptionPrompt.args) (p : OptionPrompt.t)
      (l : list string) (s : string) :
  OptionPrompt.new a = inr p ->
  OptionPrompt.a_options a = OList l ->
  OptionPrompt.a_default a = DVal (VStr s) ->
  In s l ->
  s <> "" ->
  exists k,
    find (same_up_to_case (OptionPrompt.a_case_sensitive a) s) l = Some k
    /\ In k l
    /\ OptionPrompt._default_keys p = [k]
    /\ PyDict.get String.eqb k (OptionPrompt._option_dict p) = Some (VStr k).
Proof.
  intros Hnew Hopt Hdef Hs Hne.
  destruct (new_inv a p Hnew) as (od & im & Hod & _ & Hp).
  pose proof (normalise_nodup _ _ Hod) as Hnd.
  rewrite Hopt in Hod. simpl in Hod. injection Hod as Hod.
  destruct (list_catalog l) as [Hall Hcov]. cbv zeta in Hall, Hcov.
  rewrite Hod in Hall, Hcov.
  set (cs := OptionPrompt.a_case_sensitive a) in *.
  assert (Hmatch : OptionPrompt.match_text cs (fold_case cs s) od
                   = find (same_up_to_case cs s) l).
  { rewrite match_text_find by (intros k v H; now apply (Hall k v)).
    rewrite <- Hod. apply find_keys_of_list. }
  destruct (find (same_up_to_case cs s) l) as [k |] eqn:Hfind.
  2: { exfalso. pose proof (find_none _ _ Hfind s Hs) as Hself.
       unfold same_up_to_case in Hself. now rewrite String.eqb_refl in Hself. }
  destruct (find_some _ _ Hfind) as [Hkl Hsame].
  unfold same_up_to_case in Hsame. apply String.eqb_eq in Hsame.
  assert (Hkne : k <> "").
  { intros ->. apply Hne. apply (fold_case_empty cs). rewrite Hsame.
    now destruct cs. }
  exists k. split; [reflexivity |]. split; [exact Hkl |].
  rewrite Hp. simpl. split.
  - rewrite Hdef. simpl. fold cs.
    unfold fold_case in Hmatch. rewrite Hmatch. simpl.
    now rewrite truthy_nonempty.
  - apply (in_get k (VStr k) od Hnd). now apply Hcov.
Qed.

(** X11: over a catalog given as a list of strings (ASCII strings, unless
    the prompt is case sensitive), a default that is one of the options and
    not the empty string selects exactly one option: the first option of
    the list that equals the default under the case rule, hence the default
    itself when the prompt is case sensitive; in single-select mode empty
    input then returns that option. *)
Theorem list_default_round_trip
        (a : OptionPrompt.args) (p : OptionPrompt.t)
        (l : list string) (s : string) :
  OptionPrompt.new a = inr p ->
  OptionPrompt.a_options a = OList l ->
  OptionPrompt.a_default a = DVal (VStr s) ->
  OptionPrompt.a_multi a = false ->
  (OptionPrompt.a_case_sensitive a = false ->
   forall x, In x l -> is_ascii x = true) ->
  In s l ->
  s <> "" ->
  exists k,
    find (same_up_to_case (OptionPrompt.a_case_sensitive a) s) l = Some k
    /\ (OptionPrompt.a_case_sensitive a = true -> k = s)
    /\ OptionPrompt._default_keys p = [k]
    /\ OptionPrompt._handle_empty p = inr (RVal (VStr k)).
Proof.
  intros Hnew Hopt Hdef Hmulti _ Hs Hne.
  destruct (list_default_key a p l s Hnew Hopt Hdef Hs Hne)
    as (k & Hfind & Hkl & Hkeys & Hget).
  exists k. split; [exact Hfind |]. split.
  { intros Hcs. destruct (find_some _ _ Hfind) as [_ Hsame].
    unfold same_up_to_case, fold_case in Hsame. rewrite Hcs in Hsame.
    apply String.eqb_eq in Hsame. now symmetry. }
  split; [exact Hkeys |].
  destruct (new_inv a p Hnew) as (od & im & _ & _ & Hp).
  unfold OptionPrompt._handle_empty. rewrite Hkeys.
  rewrite (getitem_get _ _ _ Hget).
  rewrite Hp. simpl. now rewrite Hdef, Hmulti.
Qed.

(** X12: empty input to a yes / no prompt.  Without a default it gives
    [None]; with a default spelled yes or true (in any casing) it gives
    [True], with no or false it gives [False]; with any other default text,
    the index texts ["1"] and ["2"] included, it raises [IndexError]. *)
Theorem yes_no_empty_input
        (prompt : string) (default : option string) (retries : Z)
        (confirm : bool) (p : OptionPrompt.t) (w : world) :
  YesNoPrompt.new prompt default retries confirm = inr p ->
  next_answer w = None \/ next_answer w = Some "" ->
  exists msg,
    OptionPrompt._do_ask p w = yes_no_default_outcome default (after_ask w msg).
Proof.
  intros Hnew Hans.
  destruct (yes_no_render _ _ _ _ _ Hnew w) as [msg Hmsg]. exists msg.
  assert (Hempty : lift (OptionPrompt._handle_empty p) (after_ask w msg)
                   = yes_no_default_outcome default (after_ask w msg)).
  { destruct (new_inv _ _ Hnew) as (od & im & Hod & _ & Hp).
    simpl in Hod. injection Hod as <-. rewrite Hp.
    unfold yes_no_default_outcome.
    destruct default as [d |]; [| reflexivity].
    generalize (after_ask w msg) as w1. intros w1.
    unfold OptionPrompt._handle_empty, OptionPrompt._resolve_default_keys,
      OptionPrompt.match_default, PyStr.mem.
    cbn [OptionPrompt.a_default OptionPrompt.a_case_sensitive
         OptionPrompt.a_multi OptionPrompt.default OptionPrompt.multi
         OptionPrompt._default_keys OptionPrompt._option_dict
         OptionPrompt.is_none negb existsb].
    change (PyDict.of_items String.eqb [("yes", VBool true); ("no", VBool false)])
      with [("yes", VBool true); ("no", VBool false)].
    generalize (PyStr.lower d) as c. intros c.
    cbv -[String.eqb].
    destruct (String.eqb c "yes"), (String.eqb c "true"),
      (String.eqb c "no"), (String.eqb c "false"); reflexivity. }
  unfold OptionPrompt._do_ask, bind. rewrite Hmsg. unfold plim.ask.
  unfold next_answer in Hans. fold (after_ask w msg).
  destruct Hans as [-> | ->]; simpl; exact Hempty.
Qed.

Lemma yes_no_empty_input_witness :
  exists p msg,
    YesNoPrompt.new "Delete all recordings?" (Some "No") 3 false = inr p
    /\ OptionPrompt._do_ask p (script [""])
       = Ret (RVal (VBool false)) (after_ask (script [""]) msg).
Proof.
  eexists.
  destruct (yes_no_empty_input "Delete all recordings?" (Some "No") 3 false _
              (script [""]) ltac:(vm_compute; reflexivity)
              ltac:(right; reflexivity))
    as [msg Hrun].
  exists msg. split; [reflexivity | exact Hrun].
Defined.

(* ------------------------------------------------------------------------ *)
(** ** Free-form prompt, repeated mode                                       *)
(* ------------------------------------------------------------------------ *)

Section CollectFacts.
Local Open Scope list_scope.
Variable self : FreeformPrompt.t.

Lemma echo_entries_lines (values : list string) :
  forall (i : nat) (w : world),
    FreeformPrompt.echo_entries i values w
    = Ret tt (after_events w (entry_lines i values)).
Proof.
  induction values as [| val values IH]; intros i w; simpl.
  - unfold ret, after_events. rewrite app_nil_r. now destruct w.
  - unfold bind at 1, plim.plain. rewrite emit_ret, IH.
    unfold after_events. simpl. now rewrite <- app_assoc.
Qed.

Lemma answers_then_done_next (w w1 : world) (r : string) (rs : list string) :
  answers w1 = answers w ->
  asked w1 = S (asked w) ->
  answers_then_done w (r :: rs) ->
  answers_then_done w1 rs.
Proof.
  intros Hans Hasked [Hrs (t & Ht & Hend)]. split.
  - intros j x Hj. rewrite Hans, Hasked.
    replace (S (asked w) + j)%nat with (asked w + S j)%nat by lia.
    now apply Hrs.
  - exists t. rewrite Hans, Hasked. split; [| exact Hend].
    simpl in Ht. now replace (S (asked w) + List.length rs)%nat
      with (asked w + S (List.length rs))%nat by lia.
Qed.

Lemma collect_spec (rs : list string) :
  forall (fuel : nat) (acc : list string) (w : world),
    answers_then_done w rs ->
    (List.length rs < fuel)%nat ->
    FreeformPrompt.collect fuel self acc w
    = Ret (acc ++ rs)
          (mkWorld (answers w) (asked w + List.length rs + 1)
                   (trace w ++ collect_trace (collect_question self) acc rs)).
Proof.
  induction rs as [| r rs IH]; intros fuel acc w Hdone Hfuel;
    (destruct fuel as [| fuel]; [simpl in Hfuel; lia |]);
    cbn [FreeformPrompt.collect]; unfold bind at 1, plim.ask.
  - destruct Hdone as [_ (t & Ht & Hend)]. simpl in Ht.
    rewrite Nat.add_0_r in Ht. rewrite Ht.
    unfold ends_collection in Hend. rewrite Hend. unfold ret. simpl.
    rewrite app_nil_r. do 2 f_equal. lia.
  - pose proof (proj1 Hdone 0%nat r eq_refl) as [Hr Hgo].
    rewrite Nat.add_0_r in Hr. rewrite Hr.
    unfold ends_collection in Hgo. rewrite Hgo.
    unfold bind at 1, plim.plain. rewrite emit_ret.
    unfold bind at 1. rewrite echo_entries_lines.
    unfold bind at 1, plim.plain_blank. rewrite emit_ret.
    rewrite IH.
    + unfold after_events. simpl. rewrite <- !app_assoc. simpl.
      replace (S (asked w + List.length rs + 1))
        with (asked w + S (List.length rs) + 1)%nat by lia.
      reflexivity.
    + eapply answers_then_done_next; [| | exact Hdone]; reflexivity.
    + simpl in Hfuel. lia.
Qed.

End CollectFacts.

(** X13: the repeated free-form mode.  When the console gives the lines
    [rs], none of them empty or ["done"] in any casing, and then such a
    terminating line, [_do_ask] returns exactly [rs], in order, having asked
    [len(rs) + 1] questions and echoed the growing list after each line;
    with no line before the terminator it prints a notice and gives the
    retry sentinel. *)
Theorem freeform_multi_collects
        (fuel : nat) (self : FreeformPrompt.t) (rs : list string) (w : world) :
  FreeformPrompt.multi self = true ->
  answers_then_done w rs ->
  (List.length rs < fuel)%nat ->
  let w1 := mkWorld (answers w) (asked w + List.length rs + 1)
                    (trace w ++ collect_trace (collect_question self) [] rs) in
  FreeformPrompt._do_ask fuel self w
  = match rs with
    | [] => Ret RRetry (after_events w1 [EPlain "No entries provided."])
    | _ => Ret (RList (map VStr rs)) w1
    end.
Proof.
  intros Hmulti Hdone Hfuel w1. unfold FreeformPrompt._do_ask.
  rewrite Hmulti. unfold bind at 1.
  rewrite (collect_spec self rs fuel [] w Hdone Hfuel). simpl.
  destruct rs; reflexivity.
Qed.

Lemma freeform_multi_collects_witness :
  FreeformPrompt._do_ask 3 (FreeformPrompt.new "Tag" true 3 false)
                         (script ["a"; "b"; "Done"])
  = Ret (RList [VStr "a"; VStr "b"])
        (mkWorld (answers (script ["a"; "b"; "Done"])) 3
                 [EAsk "Tag (or type 'done' to finish): ";
                  EPlain "Current entries:"; EPlain " 1. a"; EPlainBlank;
                  EAsk "Tag (or type 'done' to finish): ";
                  EPlain "Current entries:"; EPlain " 1. a"; EPlain " 2. b";
                  EPlainBlank;
                  EAsk "Tag (or type 'done' to finish): "]).
Proof.
  refine (freeform_multi_collects 3 (FreeformPrompt.new "Tag" true 3 false)
            ["a"; "b"] (script ["a"; "b"; "Done"]) eq_refl _ _).
  - split.
    + intros [| [| [| j]]] r H; simpl in H; try discriminate;
        injection H as <-; split; reflexivity.
    + exists "Done". split; reflexivity.
  - simpl. lia.
Defined.

(* ------------------------------------------------------------------------ *)
(** ** Rendering                                                             *)
(* ------------------------------------------------------------------------ *)

Section RenderFacts.
Local Open Scope list_scope.

Lemma string_app_nil_r (s : string) : (s ++ "")%string = s.
Proof. induction s as [| c s IH]; simpl; [reflexivity | now rewrite IH]. Qed.

Lemma string_app_assoc (a b c : string) :
  ((a ++ b) ++ c)%string = (a ++ b ++ c)%string.
Proof. induction a as [| x a IH]; simpl; [reflexivity | now rewrite IH]. Qed.

Lemma render_menu_lines (p : OptionPrompt.t) (ks : list string) :
  forall (idx : nat) (w : world),
    OptionPrompt.render_menu p idx ks w
    = Ret tt (after_events w (menu_lines p idx ks)).
Proof.
  induction ks as [| key ks IH]; intros idx w; simpl.
  - unfold ret, after_events. rewrite app_nil_r. now destruct w.
  - unfold bind at 1, menu_line.
    destruct (PyStr.mem key (OptionPrompt._default_keys p));
      unfold plim.bold, plim.plain; rewrite emit_ret, IH;
      unfold after_events; simpl; rewrite <- app_assoc; simpl.
    + now rewrite !string_app_assoc.
    + now rewrite string_app_nil_r.
Qed.

Lemma menu_lines_nth (p : OptionPrompt.t) (ks : list string) :
  forall (idx i : nat) (k : string),
    nth_error ks i = Some k ->
    nth_error (menu_lines p idx ks) i = Some (menu_line p (idx + i) k).
Proof.
  induction ks as [| key ks IH]; intros idx i k; [now destruct i |].
  destruct i; simpl.
  - intros [= ->]. now rewrite Nat.add_0_r.
  - intros H. rewrite (IH (S idx) i k H). do 2 f_equal. lia.
Qed.

Lemma menu_lines_length (p : OptionPrompt.t) (ks : list string) :
  forall idx, List.length (menu_lines p idx ks) = List.length ks.
Proof. induction ks as [| key ks IH]; intros idx; simpl; auto. Qed.

(** Rendering never asks the console anything. *)
Lemma render_prompt_quiet (p : OptionPrompt.t) (w : world) :
  exists msg es,
    OptionPrompt._render_prompt p w = Ret msg (after_events w es)
    /\ (OptionPrompt.display p = "menu" ->
        es = menu_lines p 1 (OptionPrompt._display_keys p))
    /\ (OptionPrompt.display p <> "menu" -> es = []).
Proof.
  unfold OptionPrompt._render_prompt.
  destruct (String.eqb_spec (OptionPrompt.display p) "menu") as [Hd | Hd].
  - unfold bind at 1. rewrite render_menu_lines. unfold ret.
    eexists. eexists. split; [reflexivity |]. split; [reflexivity | contradiction].
  - unfold ret. eexists. exists []. split.
    + unfold after_events. rewrite app_nil_r. now destruct w.
    + split; [contradiction | reflexivity].
Qed.

End RenderFacts.

(** X14: what the menu display prints.  Rendering asks nothing; in menu
    mode it prints exactly one line per catalog key, in catalog order, the
    line of the key at position [i] (from zero) carrying the number
    [i + 1], in bold with the tag [default] exactly for the default keys;
    in any other mode it prints nothing at all. *)
Theorem menu_prints_numbered_keys (p : OptionPrompt.t) (w : world) :
  exists msg es,
    OptionPrompt._render_prompt p w = Ret msg (after_events w es)
    /\ (OptionPrompt.display p <> "menu" -> es = [])
    /\ (OptionPrompt.display p = "menu" ->
        List.length es = List.length (OptionPrompt._display_keys p)
        /\ forall i k,
            nth_error (OptionPrompt._display_keys p) i = Some k ->
            nth_error es i
            = Some (if PyStr.mem k (OptionPrompt._default_keys p)
                    then EBold (" [" ++ PyStr.of_nat (S i) ++ "] " ++ k
                                ++ " [default]")
                    else EPlain (" [" ++ PyStr.of_nat (S i) ++ "] " ++ k))).
Proof.
  destruct (render_prompt_quiet p w) as (msg & es & Hrun & Hmenu & Hinline).
  exists msg, es. split; [exact Hrun |]. split; [exact Hinline |].
  intros Hd. rewrite (Hmenu Hd). split; [apply menu_lines_length |].
  intros i k Hk. rewrite (menu_lines_nth p _ 1 i k Hk). unfold menu_line.
  simpl. destruct (PyStr.mem k _); [| reflexivity].
  now rewrite !string_app_assoc.
Qed.

(* ------------------------------------------------------------------------ *)
(** ** Tokens of a multi-select input                                        *)
(* ------------------------------------------------------------------------ *)

Section TokenFacts.
Local Open Scope list_scope.

Lemma all_chars_lstrip (P : ascii -> bool) (s : string) :
  all_chars P s = true -> all_chars P (PyStr.lstrip s) = true.
Proof.
  induction s as [| c s IH]; simpl; [reflexivity |].
  intros H. destruct (PyStr.is_space c); [| exact H].
  apply andb_prop in H. now apply IH.
Qed.

Lemma all_chars_rstrip (P : ascii -> bool) (s : string) :
  all_chars P s = true -> all_chars P (PyStr.rstrip s) = true.
Proof.
  induction s as [| c s IH]; simpl; [reflexivity |].
  intros H. apply andb_prop in H. destruct H as [Hc Hs].
  specialize (IH Hs). destruct (PyStr.rstrip s); simpl in *.
  - destruct (PyStr.is_space c); simpl; [reflexivity | now rewrite Hc].
  - now rewrite Hc.
Qed.

Lemma split_no_comma (s : string) :
  forall part, In part (PyStr.split "," s) ->
               all_chars (fun c => negb (is_comma c)) part = true.
Proof.
  induction s as [| c s IH]; simpl.
  - intros part [<- | []]. reflexivity.
  - fold (is_comma c). destruct (is_comma c) eqn:Hc.
    + intros part [<- | H]; [reflexivity | now apply IH].
    + destruct (PyStr.split "," s) as [| h t] eqn:Hs.
      * intros part [<- | []]. simpl. now rewrite Hc.
      * intros part [<- | H].
        -- simpl. rewrite Hc. simpl. apply IH. now left.
        -- apply IH. now right.
Qed.

Lemma rstrip_idem (s : string) : PyStr.rstrip (PyStr.rstrip s) = PyStr.rstrip s.
Proof.
  induction s as [| c s IH]; simpl; [reflexivity |].
  destruct (PyStr.rstrip s) as [| c' s'] eqn:Hr.
  - destruct (PyStr.is_space c) eqn:Hc; simpl; [reflexivity | now rewrite Hc].
  - simpl. simpl in IH. now rewrite IH.
Qed.

Lemma lstrip_head (s : string) :
  match PyStr.lstrip s with
  | EmptyString => True
  | String c _ => PyStr.is_space c = false
  end.
Proof.
  induction s as [| c s IH]; simpl; [exact I |].
  destruct (PyStr.is_space c) eqn:Hc; [exact IH | exact Hc].
Qed.

Lemma rstrip_head (c : ascii) (s : string) :
  PyStr.is_space c = false ->
  exists r, PyStr.rstrip (String c s) = String c r.
Proof.
  intros Hc. simpl. destruct (PyStr.rstrip s); [rewrite Hc |]; eauto.
Qed.

(** Stripping twice is stripping once. *)
Lemma strip_idem (s : string) : PyStr.strip (PyStr.strip s) = PyStr.strip s.
Proof.
  unfold PyStr.strip. pose proof (lstrip_head s) as Hh.
  destruct (PyStr.lstrip s) as [| c u]; [reflexivity |].
  destruct (rstrip_head c u Hh) as [r Hr].
  assert (Hl : PyStr.lstrip (PyStr.rstrip (String c u)) = PyStr.rstrip (String c u)).
  { rewrite Hr. simpl. now rewrite Hh. }
  rewrite Hl. apply rstrip_idem.
Qed.

End TokenFacts.

Lemma split_all_chars (P : ascii -> bool) (s : string) :
  all_chars P s = true ->
  forall part, In part (PyStr.split "," s) -> all_chars P part = true.
Proof.
  induction s as [| c s IH]; simpl.
  - intros _ part [<- | []]. reflexivity.
  - intros H. apply andb_prop in H. destruct H as [Hc Hs].
    specialize (IH Hs). destruct (Ascii.eqb c ",").
    + intros part [<- | H]; [reflexivity | now apply IH].
    + destruct (PyStr.split "," s) as [| h t].
      * intros part [<- | []]. simpl. now rewrite Hc.
      * intros part [<- | H].
        -- simpl. rewrite Hc. apply IH. now left.
        -- apply IH. now right.
Qed.

Lemma no_comma_split (s : string) :
  all_chars (fun c => negb (is_comma c)) s = true -> PyStr.split "," s = [s].
Proof.
  induction s as [| c s IH]; simpl; [reflexivity |].
  intros H. apply andb_prop in H. destruct H as [Hc Hs].
  unfold is_comma in Hc. apply negb_true_iff in Hc.
  now rewrite Hc, (IH Hs).
Qed.

(** X15: the tokens of an ASCII multi-select input are clean: none is
    empty, none contains a comma, none has white space left at either end,
    all are ASCII, and each of them, given as an input of its own, is its
    only token. *)
Theorem tokens_are_clean (norm token : string) :
  is_ascii norm = true ->
  In token (OptionPrompt.tokens_of norm) ->
  token <> ""
  /\ all_chars (fun c => negb (is_comma c)) token = true
  /\ PyStr.strip token = token
  /\ is_ascii token = true
  /\ OptionPrompt.tokens_of token = [token].
Proof.
  unfold OptionPrompt.tokens_of. intros Hascii H.
  apply filter_In in H. destruct H as [Hin Htruthy].
  apply in_map_iff in Hin. destruct Hin as (part & <- & Hpart).
  assert (Hne : PyStr.strip part <> "")
    by (intros Hempty; rewrite Hempty in Htruthy; discriminate).
  assert (Hcomma : all_chars (fun c => negb (is_comma c)) (PyStr.strip part) = true).
  { unfold PyStr.strip. apply all_chars_rstrip, all_chars_lstrip.
    now apply (split_no_comma norm). }
  split; [exact Hne |]. split; [exact Hcomma |].
  split; [apply strip_idem |]. split.
  - unfold is_ascii, PyStr.strip. apply all_chars_rstrip, all_chars_lstrip.
    now apply (split_all_chars _ norm Hascii).
  - rewrite (no_comma_split _ Hcomma). simpl.
    now rewrite strip_idem, Htruthy.
Qed.

(* ------------------------------------------------------------------------ *)
(** ** Multi-select parsing without shortcuts                                *)
(* ------------------------------------------------------------------------ *)

Section PlainScanFacts.
Local Open Scope list_scope.
Variable p : OptionPrompt.t.

Lemma scan_tokens_plain (tokens : list string) :
  (forall t, In t tokens -> recognised p t = true \/ is_shortcut t = false) ->
  forall selected unknown,
    OptionPrompt.scan_tokens p tokens selected unknown
    = (selected ++ map (resolve p) (filter (kept p) tokens),
       unknown ++ unknown_of p tokens).
Proof.
  induction tokens as [| t tokens IH]; intros Hplain selected unknown.
  - simpl. unfold unknown_of. rewrite !app_nil_r.
    now destruct (OptionPrompt.allow_custom p); rewrite ?app_nil_r.
  - assert (Hrest : forall t', In t' tokens ->
                               recognised p t' = true \/ is_shortcut t' = false)
      by (intros t' H; apply Hplain; now right).
    specialize (IH Hrest).
    unfold unknown_of in *.
    cbn [OptionPrompt.scan_tokens filter map]. unfold kept at 1.
    unfold recognised at 1 2, PyDict.mem.
    destruct (PyDict.get String.eqb t (OptionPrompt._index_map p)) eqn:Hi.
    { rewrite IH. cbn [orb negb map]. unfold resolve at 2. rewrite Hi.
      rewrite <- app_assoc. now destruct (OptionPrompt.allow_custom p). }
    destruct (PyDict.get value_eqb (VStr t) (OptionPrompt._value_map p)) eqn:Hv.
    { rewrite IH. cbn [orb negb map]. unfold resolve at 2. rewrite Hi, Hv.
      rewrite <- app_assoc. now destruct (OptionPrompt.allow_custom p). }
    assert (Hnot : PyStr.mem t ["all"; "none"] = false).
    { destruct (Hplain t (or_introl eq_refl)) as [Hr | Hs]; [| exact Hs].
      unfold recognised, PyDict.mem in Hr. rewrite Hi, Hv in Hr. discriminate. }
    rewrite Hnot. cbn [orb negb].
    destruct (OptionPrompt.allow_custom p); rewrite IH; cbn [map].
    + unfold resolve at 2. rewrite Hi, Hv. now rewrite <- app_assoc.
    + now rewrite <- app_assoc.
Qed.

Lemma unknown_none_kept (tokens : list string) :
  unknown_of p tokens = [] -> filter (kept p) tokens = tokens.
Proof.
  unfold unknown_of, kept. destruct (OptionPrompt.allow_custom p).
  - intros _. induction tokens as [| t tokens IH]; simpl; [reflexivity |].
    now rewrite orb_true_r, IH.
  - induction tokens as [| t tokens IH]; simpl; [reflexivity |].
    destruct (recognised p t); simpl; [| discriminate].
    intros H. now rewrite IH.
Qed.

End PlainScanFacts.

(** X16: multi-select parsing of an ASCII input when no shortcut takes
    effect.  The tokens are resolved one by one, each by the index map first and the value map
    second, and the result lists their values in input order, repeated
    tokens included; tokens the catalog does not know are custom entries
    when custom values are allowed, and otherwise reject the whole input
    with one warning that lists all of them, in order. *)
Theorem multi_select_in_order
        (p : OptionPrompt.t) (raw : string) (tokens : list string) (w : world) :
  OptionPrompt.multi p = true ->
  is_ascii raw = true ->
  OptionPrompt.tokens_of (fold_case (OptionPrompt.case_sensitive p) raw) = tokens ->
  (forall t, In t tokens -> recognised p t = true \/ is_shortcut t = false) ->
  OptionPrompt._parse_input p raw w
  = match unknown_of p tokens with
    | [] => Ret (RList (map (resolve p) tokens)) w
    | unknown =>
        Ret RRetry
            (after_events w
               [EWarn ("⚠️ Invalid input: " ++ PyStr.join ", " unknown)])
    end.
Proof.
  intros Hmulti _ Htok Hplain. unfold OptionPrompt._parse_input.
  unfold fold_case in Htok. rewrite Hmulti, Htok.
  rewrite (scan_tokens_plain p tokens Hplain [] []). simpl.
  destruct (unknown_of p tokens) eqn:Hu; [| reflexivity].
  now rewrite (unknown_none_kept p tokens Hu).
Qed.

(* ------------------------------------------------------------------------ *)
(** ** From the facade to the answer                                         *)
(* ------------------------------------------------------------------------ *)

Lemma option_do_ask_empty (p : OptionPrompt.t) (w : world) :
  next_answer w = None \/ next_answer w = Some "" ->
  exists w1,
    OptionPrompt._do_ask p w = lift (OptionPrompt._handle_empty p) w1
    /\ asked w1 = S (asked w)
    /\ answers w1 = answers w.
Proof.
  intros Hans. destruct (render_prompt_quiet p w) as (msg & es & Hrun & _).
  exists (after_ask (after_events w es) msg).
  split; [| split; reflexivity].
  unfold OptionPrompt._do_ask, bind. rewrite Hrun. unfold plim.ask.
  unfold next_answer in Hans. simpl.
  destruct Hans as [-> | ->]; reflexivity.
Qed.

Lemma option_do_ask_answer (p : OptionPrompt.t) (raw : string) (w : world) :
  next_answer w = Some raw ->
  raw <> "" ->
  exists w1,
    OptionPrompt._do_ask p w = OptionPrompt._parse_input p raw w1
    /\ asked w1 = S (asked w).
Proof.
  intros Hans Hne. destruct (render_prompt_quiet p w) as (msg & es & Hrun & _).
  exists (after_ask (after_events w es) msg). split; [| reflexivity].
  unfold OptionPrompt._do_ask, bind. rewrite Hrun. unfold plim.ask.
  unfold next_answer in Hans. simpl. rewrite Hans. simpl.
  destruct (String.eqb_spec raw "") as [-> | _]; [contradiction | reflexivity].
Qed.

(** X7: in single-select mode, answering with a key of the catalog as it
    is displayed (the empty key apart, which is empty input) is always
    accepted: [_do_ask] returns a value of the catalog after one question.
    Unless the prompt is case sensitive, so is answering with the text
    [str(v)] of a catalog value, when that text is not empty. *)
Theorem key_or_value_text_accepted
        (a : OptionPrompt.args) (p : OptionPrompt.t)
        (k : string) (v : value) (w : world) :
  OptionPrompt.new a = inr p ->
  OptionPrompt.multi p = false ->
  In (k, v) (OptionPrompt._option_dict p) ->
  (k <> "" ->
   next_answer w = Some k ->
   exists v' w',
     OptionPrompt._do_ask p w = Ret (RVal v') w'
     /\ In v' (PyDict.values (OptionPrompt._option_dict p))
     /\ asked w' = S (asked w))
  /\ (OptionPrompt.case_sensitive p = false ->
      py_str v <> "" ->
      next_answer w = Some (py_str v) ->
      exists v' w',
        OptionPrompt._do_ask p w = Ret (RVal v') w'
        /\ In v' (PyDict.values (OptionPrompt._option_dict p))
        /\ asked w' = S (asked w)).
Proof.
  intros Hnew Hm Hin.
  assert (Hcov : PyDict.mem value_eqb
                   (OptionPrompt.key_norm (OptionPrompt.case_sensitive p) k)
                   (OptionPrompt._value_map p) = true
                 /\ PyDict.mem value_eqb
                      (OptionPrompt.value_norm (OptionPrompt.case_sensitive p) v)
                      (OptionPrompt._value_map p) = true).
  { destruct (new_inv a p Hnew) as (od & im & _ & _ & Hp).
    rewrite Hp in Hin |- *. simpl in *. now apply value_map_covers. }
  destruct Hcov as [Hk Hv].
  assert (Hrun : forall raw,
             raw <> "" ->
             next_answer w = Some raw ->
             PyDict.mem value_eqb
                        (VStr (fold_case (OptionPrompt.case_sensitive p) raw))
                        (OptionPrompt._value_map p) = true ->
             exists v' w',
               OptionPrompt._do_ask p w = Ret (RVal v') w'
               /\ In v' (PyDict.values (OptionPrompt._option_dict p))
               /\ asked w' = S (asked w)).
  { intros raw Hne Hans Hmem.
    destruct (option_do_ask_answer p raw w Hans Hne) as (w1 & Hdo & Hasked).
    destruct (single_accepts a p raw w1 Hnew Hm Hmem) as (v' & Hparse & Hv').
    exists v', w1. rewrite Hdo. now repeat split. }
  split.
  - intros Hne Hans. now apply (Hrun k).
  - intros Hcs Hne Hans. apply (Hrun (py_str v)); [assumption | assumption |].
    unfold OptionPrompt.value_norm in Hv. rewrite Hcs in Hv |- *. exact Hv.
Qed.

(** X17: the facade end to end.  Called with a list of options (ASCII
    strings, unless the call is case sensitive), a default among them,
    single-select, no confirmation and at least one attempt,
    [interactive_prompt] answers empty input with the first option of the
    list that equals the default under the case rule, after asking the
    console exactly once. *)
Theorem router_returns_default
        (fuel : nat) (a : router_args) (l : list string) (s : string)
        (w : world) :
  freeform_requested a = false ->
  r_options a = OList l ->
  r_default a = DVal (VStr s) ->
  r_multi a = false ->
  r_confirm a = false ->
  0 < r_retries a ->
  (r_case_sensitive a = false -> forall x, In x l -> is_ascii x = true) ->
  In s l ->
  s <> "" ->
  next_answer w = None \/ next_answer w = Some "" ->
  exists k w',
    interactive_prompt fuel a w = Ret (RVal (VStr k)) w'
    /\ find (same_up_to_case (r_case_sensitive a) s) l = Some k
    /\ asked w' = S (asked w).
Proof.
  intros Hfree Hopt Hdef Hmulti Hconf Hret _ Hs Hne Hans.
  destruct (new_total (option_args a) l Hopt) as [p Hnew].
  destruct (list_default_key (option_args a) p l s Hnew Hopt Hdef Hs Hne)
    as (k & Hfind & Hkl & Hkeys & Hget).
  destruct (option_do_ask_empty p w Hans) as (w1 & Hdo & Hasked & _).
  assert (Hempty : OptionPrompt._handle_empty p = inr (RVal (VStr k))).
  { destruct (new_inv _ _ Hnew) as (od & im & _ & _ & Hp).
    unfold OptionPrompt._handle_empty. rewrite Hkeys.
    rewrite (getitem_get _ _ _ Hget). rewrite Hp. simpl.
    now rewrite Hdef, Hmulti. }
  rewrite Hempty in Hdo. simpl in Hdo.
  assert (Hbase : OptionPrompt.base p
                  = PromptBase.new (r_prompt a) (r_retries a) false).
  { destruct (new_inv _ _ Hnew) as (od & im & _ & _ & Hp).
    rewrite Hp. simpl. now rewrite Hconf. }
  exists k, w1. split; [| split; [exact Hfind | exact Hasked]].
  unfold interactive_prompt. unfold freeform_requested in Hfree.
  fold (option_args a). rewrite Hnew, Hfree, Hopt.
  cbn [options_is_none is_list_or_dict].
  unfold lift, OptionPrompt.ask, PromptBase.ask, bind, ret.
  rewrite (good_round_step (OptionPrompt._do_ask p) _ (OptionPrompt.base p)
                           w w1 (RVal (VStr k))).
  - reflexivity.
  - rewrite Hbase. apply good_plain; [exact Hdo | discriminate | reflexivity].
  - rewrite Hbase. simpl. exact Hret.
Qed.

(* ------------------------------------------------------------------------ *)
(** ** Further theorems at work on concrete prompts                          *)
(* ------------------------------------------------------------------------ *)

Lemma parse_only_catalog_values_witness :
  exists p,
    OptionPrompt.new (fruit true (DVal VNone)) = inr p
    /\ forall v, In v [VInt 1; VInt 3] -> In v [VInt 1; VInt 2; VInt 3].
Proof.
  eexists. split; [vm_compute; reflexivity |].
  exact (parse_only_catalog_values (fruit true (DVal VNone)) _ "1, cherry"
           (script []) (script []) (RList [VInt 1; VInt 3])
           eq_refl eq_refl eq_refl).
Defined.

Lemma custom_never_rejected_witness :
  exists p r,
    OptionPrompt.new (colours false true true "inline" (DVal VNone)) = inr p
    /\ OptionPrompt._parse_input p "Blue, 2" (script []) = Ret r (script [])
    /\ r <> RRetry.
Proof.
  eexists.
  assert (Hnew : OptionPrompt.new (colours false true true "inline" (DVal VNone))
                 = inr _) by (vm_compute; reflexivity).
  match type of Hnew with
  | _ = inr ?p =>
      destruct (custom_never_rejected p "Blue, 2" (script []) eq_refl)
        as (r & Hrun & Hr)
  end.
  exists r. split; [exact Hnew | split; assumption].
Defined.

Lemma key_or_value_text_accepted_witness :
  exists p v w',
    OptionPrompt.new (fruit false (DVal VNone)) = inr p
    /\ OptionPrompt._do_ask p (script ["2"]) = Ret (RVal v) w'
    /\ In v [VInt 1; VInt 2; VInt 3].
Proof.
  eexists.
  destruct (key_or_value_text_accepted (fruit false (DVal VNone)) _
              "Banana" (VInt 2) (script ["2"])
              ltac:(vm_compute; reflexivity) ltac:(reflexivity)
              ltac:(simpl; auto))
    as [_ Hvalue].
  destruct (Hvalue eq_refl ltac:(discriminate) eq_refl)
    as (v & w' & Hrun & Hin & _).
  exists v, w'. split; [reflexivity | split; assumption].
Defined.

Lemma menu_number_selects_witness :
  exists p,
    OptionPrompt.new (fruit true (DVal VNone)) = inr p
    /\ OptionPrompt._parse_input p "3" (script [])
       = Ret (RList [VInt 3]) (script []).
Proof.
  eexists. split; [vm_compute; reflexivity |].
  exact (menu_number_selects (fruit true (DVal VNone)) _ 2 "Cherry" (VInt 3)
           (script []) eq_refl eq_refl).
Defined.

Lemma parse_ignores_case_witness :
  exists p,
    OptionPrompt.new (fruit false (DVal VNone)) = inr p
    /\ OptionPrompt._parse_input p (PyStr.lower "CHERRY") (script [])
       = OptionPrompt._parse_input p "CHERRY" (script []).
Proof.
  eexists. split; [vm_compute; reflexivity |].
  match goal with
  | |- context [OptionPrompt._parse_input ?p "CHERRY" _] =>
      refine (parse_ignores_case p "CHERRY" (script []) eq_refl eq_refl _)
  end.
  right. reflexivity.
Defined.

Lemma empty_input_outcomes_witness :
  exists p v,
    OptionPrompt.new (fruit false (DVal (VInt 2))) = inr p
    /\ PyDict.get String.eqb "Cherry" (OptionPrompt._option_dict p) = Some v
    /\ OptionPrompt._handle_empty p = inr (RVal v).
Proof.
  eexists.
  destruct (empty_input_outcomes (fruit false (DVal (VInt 2))) _
              ltac:(vm_compute; reflexivity))
    as (_ & _ & Hsingle & _).
  destruct (Hsingle eq_refl "Cherry" [] eq_refl) as (v & Hget & Hrun).
  exists v. split; [reflexivity | split; assumption].
Defined.

Lemma list_default_round_trip_witness :
  exists p,
    OptionPrompt.new (colours false false false "inline" (DVal (VStr "RED")))
    = inr p
    /\ OptionPrompt._default_keys p = ["Red"]
    /\ OptionPrompt._handle_empty p = inr (RVal (VStr "Red")).
Proof.
  eexists.
  destruct (list_default_round_trip
              (colours false false false "inline" (DVal (VStr "RED"))) _
              ["Red"; "green"; "RED"] "RED"
              ltac:(vm_compute; reflexivity) eq_refl eq_refl eq_refl
              ltac:(intros _ x [<- | [<- | [<- | []]]]; reflexivity)
              ltac:(simpl; auto) ltac:(discriminate))
    as (k & Hfind & _ & Hkeys & Hrun).
  cbv in Hfind. injection Hfind as <-.
  split; [reflexivity | split; assumption].
Defined.

Lemma menu_prints_numbered_keys_witness :
  exists p msg es,
    OptionPrompt.new (colours false false false "menu" (DVal (VStr "green")))
    = inr p
    /\ OptionPrompt._render_prompt p (script []) = Ret msg (after_events (script []) es)
    /\ nth_error es 1 = Some (EBold " [2] green [default]").
Proof.
  eexists.
  assert (Hnew : OptionPrompt.new
                   (colours false false false "menu" (DVal (VStr "green")))
                 = inr _) by (vm_compute; reflexivity).
  match type of Hnew with
  | _ = inr ?p =>
      destruct (menu_prints_numbered_keys p (script []))
        as (msg & es & Hrun & _ & Hmenu)
  end.
  exists msg, es. split; [exact Hnew | split; [exact Hrun |]].
  exact (proj2 (Hmenu eq_refl) 1%nat "green" eq_refl).
Defined.

Lemma tokens_are_clean_witness :
  "cherry" <> ""
  /\ all_chars (fun c => negb (is_comma c)) "cherry" = true
  /\ PyStr.strip "cherry" = "cherry"
  /\ is_ascii "cherry" = true
  /\ OptionPrompt.tokens_of "cherry" = ["cherry"].
Proof.
  apply (tokens_are_clean " 1 ,, cherry  ,"); [reflexivity |].
  simpl. auto.
Defined.

Lemma multi_select_in_order_witness :
  exists p,
    OptionPrompt.new (fruit true (DVal VNone)) = inr p
    /\ OptionPrompt._parse_input p "Cherry, 1, cherry" (script [])
       = Ret (RList [VInt 3; VInt 1; VInt 3]) (script []).
Proof.
  eexists. split; [vm_compute; reflexivity |].
  match goal with
  | |- context [OptionPrompt._parse_input ?p _ _] =>
      refine (multi_select_in_order p "Cherry, 1, cherry"
                ["cherry"; "1"; "cherry"] (script []) eq_refl eq_refl eq_refl _)
  end.
  intros t Ht. left. simpl in Ht.
  destruct Ht as [<- | [<- | [<- | []]]]; reflexivity.
Defined.

Lemma router_returns_default_witness :
  exists w',
    interactive_prompt 0 colour_call (script [""]) = Ret (RVal (VStr "Red")) w'
    /\ asked w' = 1%nat.
Proof.
  destruct (router_returns_default 0 colour_call ["Red"; "green"; "RED"] "RED"
              (script [""]) eq_refl eq_refl eq_refl eq_refl eq_refl eq_refl
              ltac:(intros _ x [<- | [<- | [<- | []]]]; reflexivity)
              ltac:(simpl; auto) ltac:(discriminate)
              ltac:(right; reflexivity))
    as (k & w' & Hrun & Hfind & Hasked).
  cbv in Hfind. injection Hfind as <-.
  exists w'. split; assumption.
Defined.
